(** * Mask_editor_proto: the C++ video reader and its Python bindings

    A shallow embedding of [src/adapters/secondary/cpp_bindings/video_reader.h]
    and [bindings.cpp], with the properties of the frame buffer exposure, of
    the session life cycle and of the bound Python interface. *)

From Stdlib Require Import ZArith QArith Qround Lia.
From Stdlib.Strings Require Import Byte.
From stdpp Require Import base option list strings gmap.

Local Open Scope Z_scope.

(** ** Outcomes of a bound C++ call

    A call either returns, raises a Python exception, or runs into C++
    undefined behaviour (an unchecked access outside a buffer). *)

Inductive py_exception :=
  | ValueError | TypeError
  | OpenError | NoVideoStreamError | DecodeError | UnsupportedFormatError.

Inductive fault := ReadOutOfBounds | WriteOutOfBounds.

Inductive outcome (A : Type) :=
  | Done (a : A)
  | Raised (e : py_exception)
  | Undefined (u : fault).
Arguments Done {A} a.
Arguments Raised {A} e.
Arguments Undefined {A} u.

Global Instance outcome_ret : MRet outcome := @Done.
Global Instance outcome_bind : MBind outcome := λ A B k m,
  match m with
  | Done a => k a
  | Raised e => Raised e
  | Undefined u => Undefined u
  end.

(** ** Machine integers *)

Module CInt.

Definition INT_MAX : Z := 2147483647.
Definition INT_MIN : Z := -2147483648.
Definition INT64_MAX : Z := 9223372036854775807.
Definition INT64_MIN : Z := -9223372036854775808.
Definition SIZE_MOD : Z := 18446744073709551616.

Definition int_range (z : Z) : Prop := INT_MIN <= z <= INT_MAX.
Definition is_int (z : Z) : bool := (INT_MIN <=? z) && (z <=? INT_MAX).
Definition is_int64 (z : Z) : bool := (INT64_MIN <=? z) && (z <=? INT64_MAX).

(** Two's-complement reduction of a mathematical result to [int]. *)
Definition wrap_int (z : Z) : Z := (z - INT_MIN) mod 4294967296 + INT_MIN.

(** [a * b] on two [int] operands. *)
Definition int_mul (a b : Z) : Z := wrap_int (a * b).

(** [idx++] on a [size_t]. *)
Definition size_succ (n : Z) : Z := (n + 1) mod SIZE_MOD.

End CInt.

(** ** video_reader.h: the data model *)

Module VideoMetadata.
Record t := mk {
  width : Z;
  height : Z;
  fps : Q;
  frame_count : Z;
  duration : Q;
  codec : string;
  bit_rate : option Z;
  color_space : option string;
  bit_depth : option Z;
  has_audio : bool;
  timecode : option string;
}.
End VideoMetadata.

Module Frame.
Record t := mk {
  index : Z;
  pts : Z;
  dts : option Z;
  data : list byte;
  width : Z;
  height : Z;
}.
End Frame.

(** ** The numpy array behind [py::array_t<uint8_t>] *)

Module Numpy.

Record array_t := mk_array {
  shape : list Z;
  strides : list Z;      (* in bytes; the item size of uint8 is 1 *)
  owndata : bool;        (* the array owns its buffer, it is no view *)
  buffer : list byte;
}.

Definition product (dims : list Z) : Z := foldr Z.mul 1 dims.

(** [py::array_t<uint8_t>(shape, strides)] with no data pointer: numpy
    allocates [product shape] bytes of its own and rejects a negative
    dimension with ValueError.  The limits of memory are not modelled: numpy
    also refuses a size beyond the address space and raises MemoryError when
    the allocation fails, so an array is returned here where numpy is able
    to allocate it. *)
Definition array_new (shp strd : list Z) : outcome array_t :=
  if forallb (Z.leb 0) shp
  then Done (mk_array shp strd true (replicate (Z.to_nat (product shp)) x00))
  else Raised ValueError.

(** Byte offset of an index through the strides, as [unchecked]
    accessors and numpy itself compute it. *)
Definition byte_offset (strd idx : list Z) : Z :=
  foldr Z.add 0 (zip_with Z.mul idx strd).

(** [buf(i, j, k) = v] through [mutable_unchecked]: no bounds check. *)
Definition store (strd : list Z) (buf : list byte) (idx : list Z) (v : byte)
  : outcome (list byte) :=
  let off := byte_offset strd idx in
  if (0 <=? off) && (off <? Z.of_nat (length buf))
  then Done (<[Z.to_nat off := v]> buf)
  else Undefined WriteOutOfBounds.

(** [vec[idx]] on a [std::vector<uint8_t>]: no bounds check. *)
Definition load (vec : list byte) (idx : Z) : outcome byte :=
  match vec !! Z.to_nat idx with
  | Some b => if 0 <=? idx then Done b else Undefined ReadOutOfBounds
  | None => Undefined ReadOutOfBounds
  end.

(** What the caller reads at a multi-index of the array. *)
Definition in_shape (shp idx : list Z) : bool :=
  (length shp =? length idx)%nat
  && forallb (λ p, (0 <=? p.1) && (p.1 <? p.2)) (zip idx shp).

Definition item (a : array_t) (idx : list Z) : option byte :=
  if in_shape (shape a) idx
  then (let off := byte_offset (strides a) idx in
        if 0 <=? off then buffer a !! Z.to_nat off else None)
  else None.

End Numpy.

(** ** bindings.cpp: [frame_to_numpy] *)

(** [for (ssize_t i = from; i < from + n; ++i) body], threading the state. *)
Fixpoint for_loop {S : Type} (n : nat) (i : Z) (body : Z → S → outcome S)
    (s : S) : outcome S :=
  match n with
  | O => Done s
  | Datatypes.S n' => s' ← body i s; for_loop n' (i + 1) body s'
  end.

Definition copy_body (f : Frame.t) (strd : list Z) (i j k : Z)
    (st : Z * list byte) : outcome (Z * list byte) :=
  v ← Numpy.load (Frame.data f) st.1;
  buf ← Numpy.store strd st.2 [i; j; k] v;
  Done (CInt.size_succ st.1, buf).

Definition copy_loop (f : Frame.t) (strd : list Z) (buf : list byte)
    : outcome (Z * list byte) :=
  for_loop (Z.to_nat (Frame.height f)) 0 (λ i,
    for_loop (Z.to_nat (Frame.width f)) 0 (λ j,
      for_loop 3 0 (λ k, copy_body f strd i j k)))
    (0, buf).

Definition frame_to_numpy (f : Frame.t) : outcome Numpy.array_t :=
  result ← Numpy.array_new
              [Frame.height f; Frame.width f; 3]
              [CInt.int_mul (Frame.width f) 3; 3; 1];
  st ← copy_loop f (Numpy.strides result) (Numpy.buffer result);
  Done (Numpy.mk_array (Numpy.shape result) (Numpy.strides result)
          (Numpy.owndata result) st.2).

(** What a loop establishes: a property of the state when it returns, and
    a property of the fault when it runs into undefined behaviour; it raises
    nothing. *)
Definition post {S : Type} (I : S → Prop) (F : fault → Prop) (o : outcome S) : Prop :=
  match o with
  | Done s => I s
  | Raised _ => False
  | Undefined u => F u
  end.

(** The first [idx] bytes of the array are those of the data, the rest is as
    allocated. *)
Definition packed_prefix (data : list byte) (idx : Z) (buf : list byte) : Prop :=
  buf = take (Z.to_nat idx) data
        ++ replicate (Z.to_nat (Z.of_nat (length data) - idx)) x00.

(** ** The media library behind the reader

    The header only forward-declares the types of the demuxing and decoding
    library ([AVFormatContext], [AVCodecContext], [AVFrame], [AVPacket],
    [SwsContext]); what the library does is described here as far as the
    specification speaks of it. *)

Inductive media_type := VideoStream | AudioStream | OtherStream.

(** Modelled from the spec: a decoded picture, which the library produces
    and the header does not describe: its presentation and decode
    timestamps, whether it is a synchronization point, and its bytes after
    the conversion to packed RGB. *)
Record picture := mk_picture {
  pic_pts : Z;
  pic_dts : option Z;
  pic_key : bool;            (* a synchronization point *)
  pic_rgb : list byte;       (* the picture after conversion to RGB24 *)
}.

(** Modelled from the spec: a packet of the video stream either decodes to
    a picture or is corrupt beyond recovery. *)
Inductive packet := Decodable (p : picture) | Corrupt.

(** Modelled from the spec: what the library reports about a media file:
    its streams, whether the video stream is usable, convertible and
    seekable, its time base, the metadata that the headers declare, and the
    packets of the video stream in the order the decoder delivers them. *)
Record container := mk_container {
  streams : list media_type;
  has_decoder : bool;        (* the video stream is usable *)
  convertible : bool;        (* the pixel format has a conversion path *)
  seekable : bool;
  time_base : Q;             (* seconds per timestamp unit *)
  probe : VideoMetadata.t;   (* what the headers declare *)
  packets : list packet;
}.

Inductive file := Unrecognized | Media (c : container).

Abbreviation handle := positive (only parsing).

(** The native objects behind the raw pointers of the reader; the format
    context carries the container and the decode cursor. *)
Inductive native :=
  | FormatContext (c : container) (cursor : nat)
  | CodecContext
  | AVFrame
  | AVPacket
  | SwsContext.

Record world := mk_world {
  fs : gmap string file;
  natives : gmap handle native;
}.

Definition alloc (o : native) (w : world) : handle * world :=
  let h := fresh (dom (natives w)) in
  (h, mk_world (fs w) (<[h := o]> (natives w))).

Definition release (p : option handle) (n : gmap handle native) : gmap handle native :=
  match p with
  | Some h => delete h n
  | None => n
  end.

(** ** video_reader.h: [CppVideoReader] *)

Module CppVideoReader.

(** The private members; a raw pointer is [None] when it is [nullptr]. *)
Record t := mk {
  format_ctx_ : option handle;
  codec_ctx_ : option handle;
  frame_ : option handle;
  rgb_frame_ : option handle;
  packet_ : option handle;
  video_stream_index_ : Z;
  metadata_ : option VideoMetadata.t;
  sws_ctx_ : option handle;
  rgb_buffer_ : list byte;
}.

(** [bool is_open() const { return format_ctx_ != nullptr; }] *)
Definition is_open (r : t) : bool :=
  match format_ctx_ r with
  | Some _ => true
  | None => false
  end.

Definition session : Type := world * t.

(** Modelled from the spec: the constructor [CppVideoReader()], whose body
    is not in the header; a new reader holds no resource. *)
Definition init : t :=
  mk None None None None None (-1) None None [].

(** Modelled from the spec: [cleanup()], declared in the header without a
    body; it releases every decoder, demuxer and conversion resource the
    reader holds, in reverse order of acquisition, and leaves the reader
    as a new one. *)
Definition cleanup (s : session) : session :=
  let '(w, r) := s in
  (mk_world (fs w)
     (release (format_ctx_ r)
        (release (codec_ctx_ r)
           (release (frame_ r)
              (release (rgb_frame_ r)
                 (release (packet_ r)
                    (release (sws_ctx_ r) (natives w))))))),
   init).

(** Modelled from the spec: [close()], declared in the header without a
    body; it releases all resources, never raises, and is a no-op on a
    closed reader. *)
Definition close (s : session) : outcome unit * session :=
  if is_open s.2 then (Done (), cleanup s) else (Done (), s).

(** Modelled from the spec: the stream selection of [open], whose body is
    not in the header: the first stream whose media type is video. *)
Fixpoint find_video_stream (ms : list media_type) (i : Z) : option Z :=
  match ms with
  | [] => None
  | VideoStream :: _ => Some i
  | _ :: ms' => find_video_stream ms' (i + 1)
  end.

Definition set_format_ctx (h : option handle) (r : t) : t :=
  mk h (codec_ctx_ r) (frame_ r) (rgb_frame_ r) (packet_ r)
     (video_stream_index_ r) (metadata_ r) (sws_ctx_ r) (rgb_buffer_ r).

Definition set_video_stream_index (i : Z) (r : t) : t :=
  mk (format_ctx_ r) (codec_ctx_ r) (frame_ r) (rgb_frame_ r) (packet_ r)
     i (metadata_ r) (sws_ctx_ r) (rgb_buffer_ r).

Definition set_metadata (m : option VideoMetadata.t) (r : t) : t :=
  mk (format_ctx_ r) (codec_ctx_ r) (frame_ r) (rgb_frame_ r) (packet_ r)
     (video_stream_index_ r) m (sws_ctx_ r) (rgb_buffer_ r).

Definition set_sws_ctx (h : option handle) (r : t) : t :=
  mk (format_ctx_ r) (codec_ctx_ r) (frame_ r) (rgb_frame_ r) (packet_ r)
     (video_stream_index_ r) (metadata_ r) h (rgb_buffer_ r).

Definition set_rgb_buffer (b : list byte) (r : t) : t :=
  mk (format_ctx_ r) (codec_ctx_ r) (frame_ r) (rgb_frame_ r) (packet_ r)
     (video_stream_index_ r) (metadata_ r) (sws_ctx_ r) b.

Definition frame_bytes (m : VideoMetadata.t) : nat :=
  Z.to_nat (VideoMetadata.width m * VideoMetadata.height m * 3).

(** Modelled from the spec: [initialize_codec()], declared in the header
    without a body; it fails when the video stream has no usable decoder,
    and otherwise acquires the codec context, the two frame holders and
    the packet holder, and sizes the scratch buffer to one frame. *)
Definition initialize_codec (c : container) (s : session) : outcome unit * session :=
  let '(w, r) := s in
  if has_decoder c then
    let '(hc, w) := alloc CodecContext w in
    let '(hf, w) := alloc AVFrame w in
    let '(hr, w) := alloc AVFrame w in
    let '(hp, w) := alloc AVPacket w in
    (Done (),
     (w, mk (format_ctx_ r) (Some hc) (Some hf) (Some hr) (Some hp)
            (video_stream_index_ r) (metadata_ r) (sws_ctx_ r)
            (replicate (frame_bytes (probe c)) x00)))
  else (Raised OpenError, s).

(** Modelled from the spec: [open(path)], declared in the header without a
    body.  The path must name a recognized container (OpenError); the first
    video stream is selected (NoVideoStreamError when there is none); the
    stream must be usable (OpenError); the metadata is populated from the
    headers.  A reader holds one decode session, so what it held before is
    released first.  On any failure the partial initialization is rolled
    back with [cleanup]. *)
Definition open (path : string) (s : session) : outcome VideoMetadata.t * session :=
  let s := cleanup s in
  if String.eqb path EmptyString then (Raised OpenError, s) else
  match fs s.1 !! path with
  | None | Some Unrecognized => (Raised OpenError, s)
  | Some (Media c) =>
      let '(h, w) := alloc (FormatContext c 0) s.1 in
      let s := (w, set_format_ctx (Some h) s.2) in
      match find_video_stream (streams c) 0 with
      | None => (Raised NoVideoStreamError, cleanup s)
      | Some i =>
          let s := (s.1, set_video_stream_index i s.2) in
          match initialize_codec c s with
          | (Done _, s) =>
              (Done (probe c), (s.1, set_metadata (Some (probe c)) s.2))
          | (Raised e, s) => (Raised e, cleanup s)
          | (Undefined u, s) => (Undefined u, s)
          end
      end
  end.

(** Modelled from the spec: the decode cursor of an open reader, which the
    library keeps behind the format context: the container and the index of
    the next frame to decode. *)
Definition position (s : session) : option (handle * container * nat) :=
  h ← format_ctx_ s.2;
  match natives s.1 !! h with
  | Some (FormatContext c cur) => Some (h, c, cur)
  | _ => None
  end.

Definition set_cursor (h : handle) (c : container) (cur : nat) (w : world) : world :=
  mk_world (fs w) (<[h := FormatContext c cur]> (natives w)).

(** Modelled from the spec: the conversion context of [decode_frame], whose
    body is not in the header; it is created once per session, lazily, and
    a pixel format without a conversion path is UnsupportedFormatError, which
    leaves the session as it was. *)
Definition ensure_sws (c : container) (s : session) : outcome unit * session :=
  match sws_ctx_ s.2 with
  | Some _ => (Done (), s)
  | None =>
      if convertible c then
        let '(h, w) := alloc SwsContext s.1 in
        (Done (), (w, set_sws_ctx (Some h) s.2))
      else (Raised UnsupportedFormatError, s)
  end.

(** Modelled from the spec: [decode_frame()], declared in the header
    without a body; it decodes the next packet of the stream.  At the end
    of the stream it returns absent; a corrupt packet is surfaced as
    DecodeError and the reader stays usable for later frames; otherwise the
    picture is converted into the scratch buffer and copied into a fresh
    frame that carries the decode-order index and the metadata dimensions. *)
Definition decode_frame (s : session) : outcome (option Frame.t) * session :=
  match position s with
  | None => (Done None, s)
  | Some (h, c, cur) =>
      match packets c !! cur with
      | None => (Done None, s)
      | Some Corrupt =>
          (Raised DecodeError, (set_cursor h c (S cur) s.1, s.2))
      | Some (Decodable p) =>
          match ensure_sws c s with
          | (Done _, s) =>
              let r := set_rgb_buffer (pic_rgb p) s.2 in
              (Done (Some (Frame.mk (Z.of_nat cur) (pic_pts p) (pic_dts p)
                             (rgb_buffer_ r)
                             (VideoMetadata.width (probe c))
                             (VideoMetadata.height (probe c)))),
               (set_cursor h c (S cur) s.1, r))
          | (Raised e, s) => (Raised e, s)
          | (Undefined u, s) => (Undefined u, s)
          end
      end
  end.

(** Modelled from the spec: the loop of [read_frame], whose body is not in
    the header: decoding forward and discarding the frames before [index],
    until the frame is reached, the stream ends or an error is raised.
    [None] means that the fuel ran out before the loop ended. *)
Fixpoint read_loop (fuel : nat) (index : Z) (s : session)
    : option (outcome (option Frame.t) * session) :=
  match fuel with
  | O => None
  | S fuel' =>
      match decode_frame s with
      | (Done (Some f), s') =>
          if Frame.index f =? index then Some (Done (Some f), s')
          else read_loop fuel' index s'
      | res => Some res
      end
  end.

Definition remaining (s : session) : nat :=
  match position s with
  | Some (_, c, cur) => length (packets c) - cur
  | None => 0
  end.

(** Modelled from the spec: [read_frame(index)], declared in the header
    without a body.  When the decode cursor is at or before [index] the
    reader decodes forward until the index is reached or the stream ends;
    when the cursor is past [index] it does not rewind and returns absent. *)
Definition read_frame (index : Z) (s : session) : outcome (option Frame.t) * session :=
  match position s with
  | None => (Done None, s)
  | Some (_, _, cur) =>
      if index <? Z.of_nat cur then (Done None, s)
      else default (Done None, s) (read_loop (S (remaining s)) index s)
  end.

(** Modelled from the spec: the container seek of [seek], whose body is not
    in the header; it lands on the last synchronization point at or before
    [target], on the start of the stream when there is none. *)
Fixpoint sync_point (ps : list packet) (i best : nat) (target : Z) : nat :=
  match ps with
  | [] => best
  | Decodable p :: ps' =>
      sync_point ps' (S i)
        (if pic_key p && (pic_pts p <=? target) then i else best) target
  | Corrupt :: ps' => sync_point ps' (S i) best target
  end.

(** Modelled from the spec: [seek(timestamp)], declared in the header
    without a body.  The container may report the seek as unsupported or,
    for a negative time, as out of range: the result is [false].  Otherwise
    the time is converted to the stream's time base, the demuxer lands on
    the synchronization point at or before it, the decoder is flushed and
    the result is [true]; past the end of the stream no frame follows. *)
Definition seek (timestamp : Q) (s : session) : outcome bool * session :=
  match position s with
  | None => (Done false, s)
  | Some (h, c, _) =>
      if negb (seekable c) then (Done false, s)
      else if negb (Qle_bool 0 timestamp) then (Done false, s)
      else
        let target := Qfloor (timestamp / time_base c) in
        let cur :=
          if Qle_bool timestamp (VideoMetadata.duration (probe c))
          then sync_point (packets c) 0 0 target
          else length (packets c) in
        (Done true, (set_cursor h c cur s.1, s.2))
  end.

End CppVideoReader.

(** The sessions that a program can reach: a new reader, then any calls of
    the public methods. *)
Inductive reachable : CppVideoReader.session → Prop :=
  | reach_init (w : world) : reachable (w, CppVideoReader.init)
  | reach_open (path : string) (s : CppVideoReader.session) :
      reachable s → reachable (CppVideoReader.open path s).2
  | reach_read_frame (index : Z) (s : CppVideoReader.session) :
      reachable s → reachable (CppVideoReader.read_frame index s).2
  | reach_seek (timestamp : Q) (s : CppVideoReader.session) :
      reachable s → reachable (CppVideoReader.seek timestamp s).2
  | reach_close (s : CppVideoReader.session) :
      reachable s → reachable (CppVideoReader.close s).2.

(** What holds of every reachable session: an open reader has a live format
    context, a closed reader is as a new one. *)
Definition wf (s : CppVideoReader.session) : Prop :=
  if CppVideoReader.is_open s.2 then is_Some (CppVideoReader.position s)
  else s.2 = CppVideoReader.init.

(** The container that an open session decodes. *)
Definition container_of (s : CppVideoReader.session) : option container :=
  x ← CppVideoReader.position s; Some x.1.2.

(** [index] lies beyond the last decodable frame of the stream. *)
Definition beyond_last_frame (c : container) (index : Z) : Prop :=
  ∀ i p, packets c !! i = Some (Decodable p) → Z.of_nat i < index.

(** No packet at or after position [cur] is corrupt. *)
Definition clean_from (c : container) (cur : nat) : Prop :=
  ∀ i, (cur <= i)%nat → packets c !! i ≠ Some Corrupt.

(** ** bindings.cpp: the Python module

    Python values, the casts of pybind11 between them and the C++ types, and
    the heap of Python objects that wrap C++ instances. *)

Abbreviation loc := positive (only parsing).

Inductive pyvalue :=
  | PyNone
  | PyBool (b : bool)
  | PyInt (z : Z)
  | PyFloat (q : Q)
  | PyStr (s : string)
  | PyException (e : py_exception)
  | PyRef (l : loc).

(** The nearest [double] of a Python integer, as [PyFloat_AsDouble] computes
    it: 53 significant bits, ties to even; [None] is the OverflowError of an
    integer beyond the largest finite [double].  The result is an integer,
    kept as an exact rational. *)
Definition round_to_double (z : Z) : option Q :=
  let m := Z.abs z in
  let bits := if m =? 0 then 0 else Z.log2 m + 1 in
  let shift := Z.max 0 (bits - 53) in
  let q := Z.shiftr m shift in
  let r := m - Z.shiftl q shift in
  let half := Z.shiftl 1 (shift - 1) in
  let up := (0 <? shift) && ((half <? r) || ((r =? half) && Z.odd q)) in
  let rounded := Z.shiftl (if up then q + 1 else q) shift in
  if rounded <? 2 ^ 1024 then Some (inject_Z (Z.sgn z * rounded)) else None.
Arguments round_to_double : simpl never.

(** The casts of pybind11 from a Python value to a C++ type, as the setter
    of a [def_readwrite] member applies them (implicit conversion allowed).
    A Python [bool] is a Python [int]; a [float] is no integer; a string, an
    exception and a bound object are no number. *)
Definition cast_int (v : pyvalue) : option Z :=
  match v with
  | PyInt z => if CInt.is_int z then Some z else None
  | PyBool b => Some (Z.b2z b)
  | _ => None
  end.

Definition cast_int64 (v : pyvalue) : option Z :=
  match v with
  | PyInt z => if CInt.is_int64 z then Some z else None
  | PyBool b => Some (Z.b2z b)
  | _ => None
  end.

Definition cast_double (v : pyvalue) : option Q :=
  match v with
  | PyFloat q => Some q
  | PyInt z => round_to_double z
  | PyBool b => Some (inject_Z (Z.b2z b))
  | _ => None
  end.

Definition cast_string (v : pyvalue) : option string :=
  match v with
  | PyStr s => Some s
  | _ => None
  end.

(** [bool]: [True], [False], [None] as false, and what has [__bool__] (a
    number, by its being non-zero); a string has [__len__] only, and the
    arrays of this module, whose size is a multiple of three, have no truth
    value. *)
Definition cast_bool (v : pyvalue) : option bool :=
  match v with
  | PyBool b => Some b
  | PyNone => Some false
  | PyInt z => Some (negb (z =? 0))
  | PyFloat q => Some (negb (Qeq_bool q 0))
  | _ => None
  end.

Definition cast_optional {A : Type} (cast : pyvalue → option A) (v : pyvalue)
    : option (option A) :=
  match v with
  | PyNone => Some None
  | _ => Some <$> cast v
  end.

Definition of_optional {A : Type} (inj : A → pyvalue) (o : option A) : pyvalue :=
  match o with
  | Some a => inj a
  | None => PyNone
  end.

(** [py::class_<VideoMetadata>]: every member is bound with [def_readwrite]. *)
Module PyVideoMetadata.

Inductive attr :=
  | width | height | fps | frame_count | duration | codec
  | bit_rate | color_space | bit_depth | has_audio | timecode.

(** [py::init<>()]: a value-initialized instance. *)
Definition init : VideoMetadata.t :=
  VideoMetadata.mk 0 0 0%Q 0 0%Q EmptyString None None None false None.

Definition getattr (a : attr) (m : VideoMetadata.t) : pyvalue :=
  match a with
  | width => PyInt (VideoMetadata.width m)
  | height => PyInt (VideoMetadata.height m)
  | fps => PyFloat (VideoMetadata.fps m)
  | frame_count => PyInt (VideoMetadata.frame_count m)
  | duration => PyFloat (VideoMetadata.duration m)
  | codec => PyStr (VideoMetadata.codec m)
  | bit_rate => of_optional PyInt (VideoMetadata.bit_rate m)
  | color_space => of_optional PyStr (VideoMetadata.color_space m)
  | bit_depth => of_optional PyInt (VideoMetadata.bit_depth m)
  | has_audio => PyBool (VideoMetadata.has_audio m)
  | timecode => of_optional PyStr (VideoMetadata.timecode m)
  end.

(** The setter of a [def_readwrite] member; [None] is a failed cast. *)
Definition setattr (a : attr) (v : pyvalue) (m : VideoMetadata.t)
    : option VideoMetadata.t :=
  let '(VideoMetadata.mk w h f n d c br cs bd ha tc) := m in
  match a with
  | width => x ← cast_int v; Some (VideoMetadata.mk x h f n d c br cs bd ha tc)
  | height => x ← cast_int v; Some (VideoMetadata.mk w x f n d c br cs bd ha tc)
  | fps => x ← cast_double v; Some (VideoMetadata.mk w h x n d c br cs bd ha tc)
  | frame_count => x ← cast_int64 v; Some (VideoMetadata.mk w h f x d c br cs bd ha tc)
  | duration => x ← cast_double v; Some (VideoMetadata.mk w h f n x c br cs bd ha tc)
  | codec => x ← cast_string v; Some (VideoMetadata.mk w h f n d x br cs bd ha tc)
  | bit_rate =>
      x ← cast_optional cast_int64 v; Some (VideoMetadata.mk w h f n d c x cs bd ha tc)
  | color_space =>
      x ← cast_optional cast_string v; Some (VideoMetadata.mk w h f n d c br x bd ha tc)
  | bit_depth =>
      x ← cast_optional cast_int v; Some (VideoMetadata.mk w h f n d c br cs x ha tc)
  | has_audio => x ← cast_bool v; Some (VideoMetadata.mk w h f n d c br cs bd x tc)
  | timecode =>
      x ← cast_optional cast_string v; Some (VideoMetadata.mk w h f n d c br cs bd ha x)
  end.

End PyVideoMetadata.

(** [py::class_<Frame>]: [def_readwrite] members and the read-only [data]. *)
Module PyFrame.

Inductive attr := index | pts | dts | width | height.

Definition init : Frame.t := Frame.mk 0 0 None [] 0 0.

Definition getattr (a : attr) (f : Frame.t) : pyvalue :=
  match a with
  | index => PyInt (Frame.index f)
  | pts => PyInt (Frame.pts f)
  | dts => of_optional PyInt (Frame.dts f)
  | width => PyInt (Frame.width f)
  | height => PyInt (Frame.height f)
  end.

Definition setattr (a : attr) (v : pyvalue) (f : Frame.t) : option Frame.t :=
  let '(Frame.mk i p d b w h) := f in
  match a with
  | index => x ← cast_int v; Some (Frame.mk x p d b w h)
  | pts => x ← cast_int64 v; Some (Frame.mk i x d b w h)
  | dts => x ← cast_optional cast_int64 v; Some (Frame.mk i p x b w h)
  | width => x ← cast_int v; Some (Frame.mk i p d b x h)
  | height => x ← cast_int v; Some (Frame.mk i p d b w x)
  end.

End PyFrame.

Inductive pyobject :=
  | VideoMetadataObj (m : VideoMetadata.t)
  | FrameObj (f : Frame.t)
  | ReaderObj (r : CppVideoReader.t)
  | ArrayObj (a : Numpy.array_t).

Record pystate := mk_pystate {
  heap : gmap loc pyobject;
  wld : world;
}.

(** A returned C++ value is moved into a new Python object. *)
Definition new_object (o : pyobject) (σ : pystate) : outcome pyvalue * pystate :=
  let l := fresh (dom (heap σ)) in
  (Done (PyRef l), mk_pystate (<[l := o]> (heap σ)) (wld σ)).

Definition put_reader (self : loc) (s : CppVideoReader.session) (σ : pystate) : pystate :=
  mk_pystate (<[self := ReaderObj s.2]> (heap σ)) s.1.

(** The calls that the module offers to Python. *)
Inductive call :=
  | VideoMetadata_init
  | VideoMetadata_get (self : loc) (a : PyVideoMetadata.attr)
  | VideoMetadata_set (self : loc) (a : PyVideoMetadata.attr) (v : pyvalue)
  | Frame_init
  | Frame_get (self : loc) (a : PyFrame.attr)
  | Frame_set (self : loc) (a : PyFrame.attr) (v : pyvalue)
  | Frame_data (self : loc)
  | Reader_init
  | Reader_open (self : loc) (path : string)
  | Reader_read_frame (self : loc) (index : Z)
  | Reader_seek (self : loc) (timestamp : Q)
  | Reader_close (self : loc)
  | Reader_is_open (self : loc)
  | Reader_enter (self : loc)
  | Reader_exit (self : loc) (exc_type exc_value traceback : pyvalue).

Definition with_metadata (self : loc) (σ : pystate)
    (k : VideoMetadata.t → outcome pyvalue * pystate) : outcome pyvalue * pystate :=
  match heap σ !! self with
  | Some (VideoMetadataObj m) => k m
  | _ => (Raised TypeError, σ)
  end.

Definition with_frame (self : loc) (σ : pystate)
    (k : Frame.t → outcome pyvalue * pystate) : outcome pyvalue * pystate :=
  match heap σ !! self with
  | Some (FrameObj f) => k f
  | _ => (Raised TypeError, σ)
  end.

Definition with_reader (self : loc) (σ : pystate)
    (k : CppVideoReader.t → outcome pyvalue * pystate) : outcome pyvalue * pystate :=
  match heap σ !! self with
  | Some (ReaderObj r) => k r
  | _ => (Raised TypeError, σ)
  end.

Definition exec (c : call) (σ : pystate) : outcome pyvalue * pystate :=
  match c with
  | VideoMetadata_init => new_object (VideoMetadataObj PyVideoMetadata.init) σ
  | VideoMetadata_get self a =>
      with_metadata self σ (λ m, (Done (PyVideoMetadata.getattr a m), σ))
  | VideoMetadata_set self a v =>
      with_metadata self σ (λ m,
        match PyVideoMetadata.setattr a v m with
        | Some m' =>
            (Done PyNone, mk_pystate (<[self := VideoMetadataObj m']> (heap σ)) (wld σ))
        | None => (Raised TypeError, σ)
        end)
  | Frame_init => new_object (FrameObj PyFrame.init) σ
  | Frame_get self a =>
      with_frame self σ (λ f, (Done (PyFrame.getattr a f), σ))
  | Frame_set self a v =>
      with_frame self σ (λ f,
        match PyFrame.setattr a v f with
        | Some f' => (Done PyNone, mk_pystate (<[self := FrameObj f']> (heap σ)) (wld σ))
        | None => (Raised TypeError, σ)
        end)
  | Frame_data self =>
      (* [](const Frame& f) { return frame_to_numpy(f); } *)
      with_frame self σ (λ f,
        match frame_to_numpy f with
        | Done a => new_object (ArrayObj a) σ
        | Raised e => (Raised e, σ)
        | Undefined u => (Undefined u, σ)
        end)
  | Reader_init => new_object (ReaderObj CppVideoReader.init) σ
  | Reader_open self path =>
      with_reader self σ (λ r,
        let '(o, s) := CppVideoReader.open path (wld σ, r) in
        let σ := put_reader self s σ in
        match o with
        | Done m => new_object (VideoMetadataObj m) σ
        | Raised e => (Raised e, σ)
        | Undefined u => (Undefined u, σ)
        end)
  | Reader_read_frame self index =>
      with_reader self σ (λ r,
        if CInt.is_int index then
          let '(o, s) := CppVideoReader.read_frame index (wld σ, r) in
          let σ := put_reader self s σ in
          match o with
          | Done (Some f) => new_object (FrameObj f) σ
          | Done None => (Done PyNone, σ)
          | Raised e => (Raised e, σ)
          | Undefined u => (Undefined u, σ)
          end
        else (Raised TypeError, σ))
  | Reader_seek self timestamp =>
      with_reader self σ (λ r,
        let '(o, s) := CppVideoReader.seek timestamp (wld σ, r) in
        (b ← o; Done (PyBool b), put_reader self s σ))
  | Reader_close self =>
      with_reader self σ (λ r,
        let '(o, s) := CppVideoReader.close (wld σ, r) in
        (_ ← o; Done PyNone, put_reader self s σ))
  | Reader_is_open self =>
      with_reader self σ (λ r, (Done (PyBool (CppVideoReader.is_open r)), σ))
  | Reader_enter self =>
      (* [](CppVideoReader& self) -> CppVideoReader& { return self; } *)
      with_reader self σ (λ _, (Done (PyRef self), σ))
  | Reader_exit self _ _ _ =>
      (* [](CppVideoReader& self, py::object, py::object, py::object) { self.close(); } *)
      with_reader self σ (λ r,
        let '(o, s) := CppVideoReader.close (wld σ, r) in
        (_ ← o; Done PyNone, put_reader self s σ))
  end.

(** A caller's write into an array that it received, as numpy performs it:
    the array's own buffer is updated in place. *)
Definition array_setitem (arr : loc) (idx : list Z) (v : byte) (σ : pystate)
    : outcome pyvalue * pystate :=
  match heap σ !! arr with
  | Some (ArrayObj a) =>
      if Numpy.in_shape (Numpy.shape a) idx then
        match Numpy.store (Numpy.strides a) (Numpy.buffer a) idx v with
        | Done buf =>
            (Done PyNone,
             mk_pystate
               (<[arr := ArrayObj (Numpy.mk_array (Numpy.shape a) (Numpy.strides a)
                                     (Numpy.owndata a) buf)]> (heap σ))
               (wld σ))
        | Raised e => (Raised e, σ)
        | Undefined u => (Undefined u, σ)
        end
      else (Raised ValueError, σ)
  | _ => (Raised TypeError, σ)
  end.

(** ** The Python [with] statement over a reader *)

Inductive stmt :=
  | Call (c : call)
  | SetItem (arr : loc) (idx : list Z) (v : byte)
  | Raise (e : py_exception).

Definition run_stmt (st : stmt) (σ : pystate) : outcome pyvalue * pystate :=
  match st with
  | Call c => exec c σ
  | SetItem arr idx v => array_setitem arr idx v σ
  | Raise e => (Raised e, σ)
  end.

Fixpoint run_block (body : list stmt) (σ : pystate) : outcome unit * pystate :=
  match body with
  | [] => (Done (), σ)
  | st :: body' =>
      match run_stmt st σ with
      | (Done _, σ') => run_block body' σ'
      | (Raised e, σ') => (Raised e, σ')
      | (Undefined u, σ') => (Undefined u, σ')
      end
  end.



(** What a call may do to an object that exists before it: nothing, unless
    the call is a member write on that very object, or a method call on that
    very reader. *)
Inductive touches (l : loc) : call → pyobject → pyobject → Prop :=
  | touch_metadata a v m m' :
      PyVideoMetadata.setattr a v m = Some m' →
      touches l (VideoMetadata_set l a v) (VideoMetadataObj m) (VideoMetadataObj m')
  | touch_frame a v f f' :
      PyFrame.setattr a v f = Some f' →
      touches l (Frame_set l a v) (FrameObj f) (FrameObj f')
  | touch_open path r r' :
      touches l (Reader_open l path) (ReaderObj r) (ReaderObj r')
  | touch_read_frame index r r' :
      touches l (Reader_read_frame l index) (ReaderObj r) (ReaderObj r')
  | touch_seek t r r' :
      touches l (Reader_seek l t) (ReaderObj r) (ReaderObj r')
  | touch_close r w :
      touches l (Reader_close l) (ReaderObj r) (ReaderObj (CppVideoReader.close (w, r)).2.2)
  | touch_exit a b c r w :
      touches l (Reader_exit l a b c) (ReaderObj r) (ReaderObj (CppVideoReader.close (w, r)).2.2).

(** ** Buffers in memory

    The bytes of a [std::vector<uint8_t>] and of a numpy array lie in
    buffers of the process, and an object holds the address of its buffer.
    Two objects alias when they hold the same address: what is written
    through one is then read through the other.  Here [frame_to_numpy] and
    the caller's writes act on that memory. *)

Abbreviation addr := positive (only parsing).
Abbreviation memory := (gmap positive (list byte)) (only parsing).

Module Mem.

(** A [Frame] in memory: [data] is the address of the buffer of the
    vector. *)
Record frame := mk_frame {
  index : Z;
  pts : Z;
  dts : option Z;
  data : addr;
  width : Z;
  height : Z;
}.

(** The frame as a value: its members, with the bytes that its buffer
    holds. *)
Definition value (f : frame) (m : memory) : option Frame.t :=
  bytes ← m !! data f;
  Some (Frame.mk (index f) (pts f) (dts f) bytes (width f) (height f)).

(** A numpy array in memory: [data_ptr] is the address of the buffer in
    which its elements lie; [owndata] tells whether the array allocated that
    buffer itself. *)
Record ndarray := mk_ndarray {
  shape : list Z;
  strides : list Z;
  data_ptr : addr;
  owndata : bool;
}.

(** [py::array_t<uint8_t>(shape, strides)] with no data pointer: numpy
    allocates a buffer at an address that is not in use. *)
Definition array_new (shp strd : list Z) (m : memory) : outcome (ndarray * memory) :=
  r ← Numpy.array_new shp strd;
  let p := fresh (dom m) in
  Done (mk_ndarray (Numpy.shape r) (Numpy.strides r) p (Numpy.owndata r),
        <[p := Numpy.buffer r]> m).

(** [frame.data[idx]]: a read in the buffer of the vector. *)
Definition load (p : addr) (idx : Z) (m : memory) : outcome byte :=
  match m !! p with
  | Some vec => Numpy.load vec idx
  | None => Undefined ReadOutOfBounds
  end.

(** [buf(i, j, k) = v]: a write in the buffer that the array points to. *)
Definition store (a : ndarray) (idx : list Z) (v : byte) (m : memory)
    : outcome memory :=
  match m !! data_ptr a with
  | Some buf =>
      buf' ← Numpy.store (strides a) buf idx v; Done (<[data_ptr a := buf']> m)
  | None => Undefined WriteOutOfBounds
  end.

Definition copy_body (f : frame) (result : ndarray) (i j k : Z) (st : Z * memory)
    : outcome (Z * memory) :=
  v ← load (data f) st.1 st.2;
  m ← store result [i; j; k] v st.2;
  Done (CInt.size_succ st.1, m).

Definition copy_loop (f : frame) (result : ndarray) (m : memory)
    : outcome (Z * memory) :=
  for_loop (Z.to_nat (height f)) 0 (λ i,
    for_loop (Z.to_nat (width f)) 0 (λ j,
      for_loop 3 0 (λ k, copy_body f result i j k)))
    (0, m).

Definition frame_to_numpy (f : frame) (m : memory) : outcome (ndarray * memory) :=
  rm ← array_new [height f; width f; 3] [CInt.int_mul (width f) 3; 3; 1] m;
  st ← copy_loop f rm.1 rm.2;
  Done (rm.1, st.2).

(** A caller's write [a[idx] = v], as numpy performs it: in the buffer that
    the array points to, whether the array owns it or not. *)
Definition setitem (a : ndarray) (idx : list Z) (v : byte) (m : memory)
    : outcome memory :=
  if Numpy.in_shape (shape a) idx then store a idx v m else Raised ValueError.

End Mem.

(** Two runs end alike: both return, in related states, or both raise the
    same exception, or both run into the same fault. *)
Definition agree {S T : Type} (R : S → T → Prop) (o : outcome S) (o' : outcome T)
    : Prop :=
  match o, o' with
  | Done s, Done t => R s t
  | Raised e, Raised e' => e = e'
  | Undefined u, Undefined u' => u = u'
  | _, _ => False
  end.

(** ** The claims as the specification words them *)

(** Every frame with [width * height * 3] bytes of data is exposed as an
    array of shape [(height, width, 3)] and strides [(width * 3, 3, 1)] whose
    element [(i, j, k)] is byte [i * width * 3 + j * 3 + k] of the data. *)
Definition exposes_packed_rgb (f : Frame.t) : Prop :=
  ∃ a, frame_to_numpy f = Done a
    ∧ Numpy.shape a = [Frame.height f; Frame.width f; 3]
    ∧ Numpy.strides a = [Frame.width f * 3; 3; 1]
    ∧ ∀ i j k, 0 <= i < Frame.height f → 0 <= j < Frame.width f → 0 <= k < 3 →
        ∃ b, Numpy.item a [i; j; k] = Some b
             ∧ Frame.data f !! Z.to_nat (i * Frame.width f * 3 + j * 3 + k) = Some b.

Definition every_frame_exposes_packed_rgb : Prop :=
  ∀ f, Z.of_nat (length (Frame.data f)) = Frame.width f * Frame.height f * 3 →
       exposes_packed_rgb f.

(** [read_frame] beyond the last decodable frame returns absent, whatever
    the stream. *)
Definition absent_beyond_last_frame : Prop :=
  ∀ s c index, reachable s → CppVideoReader.is_open s.2 = true →
    container_of s = Some c → beyond_last_frame c index →
    (CppVideoReader.read_frame index s).1 = Done None.

(** [seek] to a time within the duration returns true, whatever the
    container. *)
Definition seek_in_range_succeeds : Prop :=
  ∀ s c t, reachable s → CppVideoReader.is_open s.2 = true →
    container_of s = Some c →
    (0 <= t)%Q → (t <= VideoMetadata.duration (probe c))%Q →
    (CppVideoReader.seek t s).1 = Done true.

(** Once [open] has returned a [VideoMetadata] object, no call of the module
    changes it. *)
Definition metadata_immutable : Prop :=
  ∀ σ self path l σ' m c,
    exec (Reader_open self path) σ = (Done (PyRef l), σ') →
    heap σ' !! l = Some (VideoMetadataObj m) →
    heap (exec c σ').2 !! l = Some (VideoMetadataObj m).

(** ** Further notions for the bindings *)

(** During the copy of [total] bytes, the first [n] bytes of the array are
    those of the data and the rest is as allocated. *)
Definition copied_prefix (data : list byte) (total n : Z) (buf : list byte) : Prop :=
  buf = take (Z.to_nat n) data ++ replicate (Z.to_nat (total - n)) x00.

(** What a member reads back after a successful assignment of [v]: the
    value as the cast to the C++ type of the member converts it.  An integer
    member turns a [bool] into 0 or 1; a [double] member turns an integer
    into the nearest [double] and a [bool] into 0.0 or 1.0; a [bool] member
    turns [None] into false and a number into its being non-zero. *)
Definition int_of (v : pyvalue) : pyvalue :=
  match v with
  | PyBool b => PyInt (Z.b2z b)
  | _ => v
  end.

Definition double_of (v : pyvalue) : pyvalue :=
  match v with
  | PyInt z => match round_to_double z with Some x => PyFloat x | None => v end
  | PyBool b => PyFloat (inject_Z (Z.b2z b))
  | _ => v
  end.

Definition bool_of (v : pyvalue) : pyvalue :=
  match v with
  | PyNone => PyBool false
  | PyInt z => PyBool (negb (z =? 0))
  | PyFloat q => PyBool (negb (Qeq_bool q 0))
  | _ => v
  end.

Definition stored_as (a : PyVideoMetadata.attr) (v : pyvalue) : pyvalue :=
  match a with
  | PyVideoMetadata.width | PyVideoMetadata.height | PyVideoMetadata.frame_count
  | PyVideoMetadata.bit_rate | PyVideoMetadata.bit_depth => int_of v
  | PyVideoMetadata.fps | PyVideoMetadata.duration => double_of v
  | PyVideoMetadata.has_audio => bool_of v
  | PyVideoMetadata.codec | PyVideoMetadata.color_space
  | PyVideoMetadata.timecode => v
  end.

(** An integer fits the C++ type of a member of [Frame]: [int64_t] for
    [pts] and [dts], [int] for the others. *)
Definition fits_member (a : PyFrame.attr) (z : Z) : bool :=
  match a with
  | PyFrame.pts | PyFrame.dts => CInt.is_int64 z
  | PyFrame.index | PyFrame.width | PyFrame.height => CInt.is_int z
  end.

(** The statement is an assignment to member [a] of the metadata object at
    [l]. *)
Definition assigns_metadata (l : loc) (a : PyVideoMetadata.attr) (st : stmt) : Prop :=
  ∃ v, st = Call (VideoMetadata_set l a v).

(** The statement is an assignment to a member of the frame at [l]. *)
Definition assigns_frame (l : loc) (st : stmt) : Prop :=
  ∃ a v, st = Call (Frame_set l a v).

(** ** Sample media *)

Module Samples.

Definition rgb (b : byte) : list byte := replicate 6 b.

Definition headers (n : Z) : VideoMetadata.t :=
  VideoMetadata.mk 2 1 30%Q n (inject_Z n / 30)%Q "h264" None None (Some 8) true None.

Definition clip : container :=
  mk_container [AudioStream; VideoStream] true true true (1 # 30)%Q (headers 3)
    [Decodable (mk_picture 0 (Some 0) true (rgb x10));
     Decodable (mk_picture 1 (Some 1) false (rgb x20));
     Decodable (mk_picture 2 (Some 2) false (rgb x30))].

Definition damaged : container :=
  mk_container [VideoStream] true true true (1 # 30)%Q (headers 2)
    [Decodable (mk_picture 0 (Some 0) true (rgb x10)); Corrupt].

(** A live stream: the container supports no seek. *)
Definition live : container :=
  mk_container [VideoStream] true true false (1 # 30)%Q (headers 3) (packets clip).

Definition song : container :=
  mk_container [AudioStream] false false true (1 # 30)%Q (headers 0) [].

Definition disk : gmap string file :=
  list_to_map
    [("clip.mp4", Media clip); ("damaged.mp4", Media damaged); ("live.ts", Media live);
     ("song.mp3", Media song); ("notes.txt", Unrecognized)].

Definition world0 : world := mk_world disk ∅.

Definition opened (path : string) : CppVideoReader.session :=
  (CppVideoReader.open path (world0, CppVideoReader.init)).2.

Definition frame_2x2 : Frame.t :=
  Frame.mk 0 0 None
    [x01; x02; x03; x04; x05; x06; x07; x08; x09; x0a; x0b; x0c] 2 2.

(** An empty frame whose row size [width * 3] does not fit an [int]; from
    Python: [f = Frame(); f.width = 715827883]. *)
Definition frame_wide : Frame.t := Frame.mk 0 0 None [] 715827883 0.

(** An empty frame with a negative width; from Python:
    [f = Frame(); f.width = -1]. *)
Definition frame_negative : Frame.t := Frame.mk 0 0 None [] (-1) 0.

(** A frame that claims one pixel and holds no byte. *)
Definition frame_hollow : Frame.t := Frame.mk 0 0 None [] 1 1.

(** A frame of one pixel that holds a surplus byte. *)
Definition frame_surplus : Frame.t := Frame.mk 0 0 None [x01; x02; x03; x04] 1 1.

(** A memory of two buffers: the data of a frame of two pixels at address
    1 and the scratch buffer of a reader at address 2. *)
Definition ram : gmap positive (list byte) :=
  <[1%positive := rgb x10]> (<[2%positive := rgb x30]> ∅).

Definition frame_in_ram : Mem.frame := Mem.mk_frame 0 0 (Some 0) 1 2 1.

(** A Python session: a reader object at location 1, then the calls. *)
Definition py0 : pystate := (exec Reader_init (mk_pystate ∅ world0)).2.

Definition after (calls : list call) (σ : pystate) : pystate :=
  foldl (λ σ c, (exec c σ).2) σ calls.

End Samples.

(** * Properties *)

(** ** Loops *)

Lemma post_bind {A B : Type} (I : A → Prop) (K : B → Prop) (F : fault → Prop)
    (m : outcome A) (k : A → outcome B) :
  post I F m → (∀ a, I a → post K F (k a)) → post K F (a ← m; k a).
Proof. destruct m; simpl; intros Hm Hk; auto. Qed.

Lemma for_loop_post {S : Type} (I : nat → S → Prop) (F : fault → Prop)
    (n : nat) (i0 : Z) (body : Z → S → outcome S) (s : S) :
  I 0%nat s →
  (∀ m t, (m < n)%nat → I m t → post (I (Datatypes.S m)) F (body (i0 + Z.of_nat m) t)) →
  post (I n) F (for_loop n i0 body s).
Proof.
  revert I i0 s. induction n as [|n IH]; intros I i0 s H0 Hstep; simpl.
  - exact H0.
  - apply (post_bind (I 1%nat)).
    + specialize (Hstep 0%nat s). rewrite Z.add_0_r in Hstep. apply Hstep; [lia|done].
    + intros t Ht. apply (IH (λ m, I (Datatypes.S m))); [done|].
      intros m u Hm Hu. replace (i0 + 1 + Z.of_nat m) with (i0 + Z.of_nat (Datatypes.S m)) by lia.
      apply Hstep; [lia|done].
Qed.

(** The three nested loops visit the pixels in row-major order: at
    [(i, j, k)] the running index [idx] is the linear index
    [(i * width + j) * 3 + k], reduced as a [size_t]. *)
Section copy_loop.
Variable f : Frame.t.
Let w := Frame.width f.
Let h := Frame.height f.
Variable strd : list Z.
Variable J : Z → list byte → Prop.
Variable F : fault → Prop.
Hypothesis w_nonneg : 0 <= w.
Hypothesis h_nonneg : 0 <= h.
Hypothesis step : ∀ i j k buf,
  0 <= i < h → 0 <= j < w → 0 <= k < 3 →
  J ((i * w + j) * 3 + k) buf →
  post (λ st, st.1 = ((i * w + j) * 3 + k + 1) mod CInt.SIZE_MOD
              ∧ J ((i * w + j) * 3 + k + 1) st.2) F
       (copy_body f strd i j k (((i * w + j) * 3 + k) mod CInt.SIZE_MOD, buf)).

Lemma copy_loop_post (buf0 : list byte) :
  J 0 buf0 →
  post (λ st, st.1 = (h * w * 3) mod CInt.SIZE_MOD ∧ J (h * w * 3) st.2) F
       (copy_loop f strd buf0).
Proof using All.
  intros H0. unfold copy_loop. fold w h.
  replace (h * w * 3) with (Z.of_nat (Z.to_nat h) * w * 3) by lia.
  apply (for_loop_post
           (λ m st, st.1 = (Z.of_nat m * w * 3) mod CInt.SIZE_MOD
                    ∧ J (Z.of_nat m * w * 3) st.2)).
  { simpl. split; [done|done]. }
  intros mi [idx buf] Hmi [Hidx HJ]. simpl in Hidx, HJ. subst idx.
  rewrite Z.add_0_l.
  replace (Z.of_nat (Datatypes.S mi) * w * 3)
    with ((Z.of_nat mi * w + Z.of_nat (Z.to_nat w)) * 3) by lia.
  apply (for_loop_post
           (λ m st, st.1 = ((Z.of_nat mi * w + Z.of_nat m) * 3) mod CInt.SIZE_MOD
                    ∧ J ((Z.of_nat mi * w + Z.of_nat m) * 3) st.2)).
  { cbn [fst snd]. by rewrite Z.add_0_r. }
  intros mj [idx buf'] Hmj [Hidx HJ']. simpl in Hidx, HJ'. subst idx.
  rewrite Z.add_0_l.
  replace ((Z.of_nat mi * w + Z.of_nat (Datatypes.S mj)) * 3)
    with ((Z.of_nat mi * w + Z.of_nat mj) * 3 + Z.of_nat 3) by lia.
  apply (for_loop_post
           (λ m st, st.1 = ((Z.of_nat mi * w + Z.of_nat mj) * 3 + Z.of_nat m)
                             mod CInt.SIZE_MOD
                    ∧ J ((Z.of_nat mi * w + Z.of_nat mj) * 3 + Z.of_nat m) st.2)).
  { cbn [fst snd]. by rewrite Z.add_0_r. }
  intros mk [idx buf''] Hmk [Hidx HJ'']. simpl in Hidx, HJ''. subst idx.
  rewrite Z.add_0_l.
  replace ((Z.of_nat mi * w + Z.of_nat mj) * 3 + Z.of_nat (Datatypes.S mk))
    with ((Z.of_nat mi * w + Z.of_nat mj) * 3 + Z.of_nat mk + 1) by lia.
  apply step; [lia..|done].
Qed.
End copy_loop.

(** ** The copy loop of [frame_to_numpy] *)

Lemma linear_index_bound (w h i j k : Z) :
  0 <= i < h → 0 <= j < w → 0 <= k < 3 →
  0 <= (i * w + j) * 3 + k < w * h * 3.
Proof. intros Hi Hj Hk. assert (i * w <= (h - 1) * w) by nia. nia. Qed.

Lemma size_mod_pos : 0 < CInt.SIZE_MOD.
Proof. done. Qed.

(** [idx++] keeps [idx] the reduced linear index, also across a wrap. *)
Lemma size_succ_mod (n : Z) :
  CInt.size_succ (n mod CInt.SIZE_MOD) = (n + 1) mod CInt.SIZE_MOD.
Proof. unfold CInt.size_succ. apply Zplus_mod_idemp_l. Qed.

Lemma int_area_fits_size_t (w h : Z) :
  0 <= w → w * 3 <= CInt.INT_MAX → 0 <= h → CInt.int_range h →
  w * h * 3 < CInt.SIZE_MOD.
Proof.
  unfold CInt.int_range, CInt.INT_MAX, CInt.INT_MIN, CInt.SIZE_MOD.
  intros Hw0 Hw Hh0 Hh.
  assert (w * 3 * h <= 2147483647 * 2147483647) by nia. lia.
Qed.

Lemma load_in_bounds (vec : list byte) (idx : Z) :
  0 <= idx < Z.of_nat (length vec) →
  ∃ b, Numpy.load vec idx = Done b ∧ vec !! Z.to_nat idx = Some b.
Proof.
  intros Hidx. unfold Numpy.load.
  destruct (lookup_lt_is_Some_2 vec (Z.to_nat idx)) as [b Hb]; [lia|].
  rewrite Hb. exists b. split; [|done].
  destruct (Z.leb_spec 0 idx); [done|lia].
Qed.

Lemma copy_loop_reads_in_bounds (f : Frame.t) (strd : list Z) (buf : list byte) :
  0 <= Frame.width f → 0 <= Frame.height f →
  Z.of_nat (length (Frame.data f)) = Frame.width f * Frame.height f * 3 →
  post (λ _, True) (λ u, u = WriteOutOfBounds) (copy_loop f strd buf).
Proof.
  intros Hw0 Hh0 Hlen.
  pose proof (copy_loop_post f strd (λ _ _, True) (λ u, u = WriteOutOfBounds)) as HL.
  cbv beta in HL. specialize (HL Hw0 Hh0).
  assert (Hgoal : post (λ st : Z * list byte,
             st.1 = (Frame.height f * Frame.width f * 3) mod CInt.SIZE_MOD ∧ True)
            (λ u, u = WriteOutOfBounds) (copy_loop f strd buf)).
  { apply HL; [|done]. intros i j k b Hi Hj Hk _.
    pose proof (linear_index_bound _ _ i j k Hi Hj Hk) as Hb.
    set (n := (i * Frame.width f + j) * 3 + k) in *.
    pose proof (Z.mod_pos_bound n _ size_mod_pos) as Hmod.
    pose proof (Z.mod_le n _ (proj1 Hb) size_mod_pos) as Hle.
    unfold copy_body. cbn [fst snd].
    destruct (load_in_bounds (Frame.data f) (n mod CInt.SIZE_MOD))
      as (v & -> & _); [lia|].
    cbn. unfold Numpy.store. destruct (_ && _); cbn; [|done].
    split; [|done]. apply size_succ_mod. }
  destruct (copy_loop f strd buf) as [st| |]; simpl in *; done.
Qed.

(** C10. For every frame whose [width] and [height] are non-negative and
    whose [data] holds exactly [width * height * 3] bytes, no read
    [frame.data[idx++]] of the copy loop of [frame_to_numpy] is out of bounds:
    the call never ends in the out-of-bounds branch of the vector read. *)
Theorem frame_to_numpy_reads_in_bounds (f : Frame.t) :
  0 <= Frame.width f → 0 <= Frame.height f →
  Z.of_nat (length (Frame.data f)) = Frame.width f * Frame.height f * 3 →
  frame_to_numpy f ≠ Undefined ReadOutOfBounds.
Proof.
  intros Hw0 Hh0 Hlen. unfold frame_to_numpy.
  unfold Numpy.array_new. destruct (forallb _ _); cbn; [|done].
  match goal with |- context [copy_loop f ?s ?b] =>
    pose proof (copy_loop_reads_in_bounds f s b Hw0 Hh0 Hlen) as Hp end.
  destruct (copy_loop f _ _) as [st|e|u]; cbn in *; [done|done|].
  subst u. done.
Qed.

Lemma frame_to_numpy_reads_in_bounds_witness :
  0 <= Frame.width Samples.frame_2x2
  ∧ 0 <= Frame.height Samples.frame_2x2
  ∧ Z.of_nat (length (Frame.data Samples.frame_2x2))
    = Frame.width Samples.frame_2x2 * Frame.height Samples.frame_2x2 * 3
  ∧ frame_to_numpy Samples.frame_2x2 ≠ Undefined ReadOutOfBounds.
Proof.
  assert (H3 : 0 <= Frame.width Samples.frame_2x2) by (simpl; lia).
  assert (H4 : 0 <= Frame.height Samples.frame_2x2) by (simpl; lia).
  assert (H5 : Z.of_nat (length (Frame.data Samples.frame_2x2))
               = Frame.width Samples.frame_2x2 * Frame.height Samples.frame_2x2 * 3)
    by reflexivity.
  repeat (split; [assumption|]).
  exact (frame_to_numpy_reads_in_bounds Samples.frame_2x2 H3 H4 H5).
Defined.

(** ** The layout of the exposed array *)

Lemma wrap_int_id (z : Z) : CInt.int_range z → CInt.wrap_int z = z.
Proof.
  unfold CInt.int_range, CInt.wrap_int, CInt.INT_MIN, CInt.INT_MAX. intros Hz.
  rewrite Z.mod_small; lia.
Qed.

Lemma insert_take_replicate (l : list byte) (n m : nat) (v x : byte) :
  l !! n = Some v →
  <[n := v]> (take n l ++ replicate (Datatypes.S m) x) = take (Datatypes.S n) l ++ replicate m x.
Proof.
  intros Hv. pose proof (lookup_lt_Some _ _ _ Hv) as Hn.
  rewrite insert_app_r_alt; rewrite length_take_le by lia; [|lia].
  rewrite Nat.sub_diag. simpl.
  rewrite (take_S_r _ _ _ Hv), <- app_assoc. done.
Qed.

Lemma copy_loop_packed (f : Frame.t) :
  0 <= Frame.width f → 0 <= Frame.height f → CInt.int_range (Frame.height f) →
  Frame.width f * 3 <= CInt.INT_MAX →
  Z.of_nat (length (Frame.data f)) = Frame.width f * Frame.height f * 3 →
  ∃ st, copy_loop f [Frame.width f * 3; 3; 1]
          (replicate (length (Frame.data f)) x00) = Done st
        ∧ st.2 = Frame.data f.
Proof.
  intros Hw0 Hh0 Hh Hw3 Hlen.
  pose proof (int_area_fits_size_t _ _ Hw0 Hw3 Hh0 Hh) as Hfit.
  pose proof (copy_loop_post f [Frame.width f * 3; 3; 1]
                (packed_prefix (Frame.data f)) (λ _, False) Hw0 Hh0) as HL.
  assert (Hgoal : post (λ st : Z * list byte,
             st.1 = (Frame.height f * Frame.width f * 3) mod CInt.SIZE_MOD
             ∧ packed_prefix (Frame.data f) (Frame.height f * Frame.width f * 3) st.2)
            (λ _, False)
            (copy_loop f [Frame.width f * 3; 3; 1]
               (replicate (length (Frame.data f)) x00))).
  { apply HL.
    - intros i j k b Hi Hj Hk Hpre.
      pose proof (linear_index_bound _ _ i j k Hi Hj Hk) as Hb.
      set (idx := (i * Frame.width f + j) * 3 + k) in *.
      rewrite (Z.mod_small idx) by lia.
      unfold copy_body. cbn [fst snd].
      destruct (load_in_bounds (Frame.data f) idx) as (v & -> & Hv); [lia|].
      cbn. unfold Numpy.store.
      assert (Hoff : Numpy.byte_offset [Frame.width f * 3; 3; 1] [i; j; k] = idx).
      { unfold Numpy.byte_offset, idx. simpl. lia. }
      rewrite Hoff.
      assert (Hblen : Z.of_nat (length b) = Z.of_nat (length (Frame.data f))).
      { rewrite Hpre, length_app, length_take_le, length_replicate by lia. lia. }
      destruct (Z.leb_spec 0 idx); [|lia].
      destruct (Z.ltb_spec idx (Z.of_nat (length b))); [|lia].
      cbn. split; [by rewrite <- size_succ_mod, (Z.mod_small idx) by lia|].
      unfold packed_prefix in *. rewrite Hpre.
      replace (Z.to_nat (Z.of_nat (length (Frame.data f)) - idx))
        with (Datatypes.S (Z.to_nat (Z.of_nat (length (Frame.data f)) - (idx + 1)))) by lia.
      rewrite (insert_take_replicate _ _ _ v) by done.
      f_equal. f_equal. lia.
    - unfold packed_prefix. simpl. f_equal. lia. }
  destruct (copy_loop f _ _) as [st| |]; simpl in Hgoal; [|done..].
  exists st. split; [done|]. destruct Hgoal as [_ Hpre].
  unfold packed_prefix in Hpre. rewrite Hpre.
  replace (Z.to_nat (Z.of_nat (length (Frame.data f)) - _)) with 0%nat by lia.
  simpl. rewrite app_nil_r. apply take_ge. lia.
Qed.

(** Within the range of [int], the copy fills the array with the data. *)
Lemma frame_to_numpy_copies (f : Frame.t) :
  0 <= Frame.width f → 0 <= Frame.height f → CInt.int_range (Frame.height f) →
  Frame.width f * 3 <= CInt.INT_MAX →
  Z.of_nat (length (Frame.data f)) = Frame.width f * Frame.height f * 3 →
  ∃ a, frame_to_numpy f = Done a
       ∧ Numpy.shape a = [Frame.height f; Frame.width f; 3]
       ∧ Numpy.strides a = [Frame.width f * 3; 3; 1]
       ∧ Numpy.owndata a = true
       ∧ Numpy.buffer a = Frame.data f
       ∧ ∀ i j k, 0 <= i < Frame.height f → 0 <= j < Frame.width f → 0 <= k < 3 →
           ∃ b, Numpy.item a [i; j; k] = Some b
                ∧ Frame.data f !! Z.to_nat (i * Frame.width f * 3 + j * 3 + k) = Some b.
Proof.
  intros Hw0 Hh0 Hh Hw3 Hlen.
  destruct (copy_loop_packed f Hw0 Hh0 Hh Hw3 Hlen) as (st & Hst & Hdata).
  unfold frame_to_numpy, Numpy.array_new. simpl forallb.
  destruct (Z.leb_spec 0 (Frame.height f)); [|lia].
  destruct (Z.leb_spec 0 (Frame.width f)); [|lia].
  cbn -[copy_loop Z.mul]. unfold CInt.int_mul.
  rewrite wrap_int_id
    by (unfold CInt.int_range, CInt.INT_MIN, CInt.INT_MAX in *; lia).
  replace (Z.to_nat (Frame.height f * (Frame.width f * (3 * 1))))
    with (length (Frame.data f)) by lia.
  rewrite Hst. cbn -[Z.mul]. eexists. split; [done|]. cbn -[Z.mul].
  repeat split; try done.
  intros i j k Hi Hj Hk.
  pose proof (linear_index_bound _ _ i j k Hi Hj Hk) as Hb.
  unfold Numpy.item, Numpy.in_shape. cbn -[Z.mul].
  repeat match goal with
  | |- context [?a <=? ?b] => destruct (Z.leb_spec a b); [|lia]
  | |- context [?a <? ?b] => destruct (Z.ltb_spec a b); [|lia]
  end.
  cbn -[Z.mul]. unfold Numpy.byte_offset. cbn -[Z.mul].
  destruct (Z.leb_spec 0 (i * (Frame.width f * 3) + (j * 3 + (k * 1 + 0)))); [|lia].
  replace (i * (Frame.width f * 3) + (j * 3 + (k * 1 + 0)))
    with (i * Frame.width f * 3 + j * 3 + k) by lia.
  rewrite Hdata.
  destruct (lookup_lt_is_Some_2 (Frame.data f)
              (Z.to_nat (i * Frame.width f * 3 + j * 3 + k))) as [b Hbv]; [lia|].
  exists b. done.
Qed.

(** ** The exposed array, in general *)

(** Whenever [frame_to_numpy] returns, the array has the shape and the
    strides that the code computes in [int]. *)
Lemma frame_to_numpy_shape_strides (f : Frame.t) (a : Numpy.array_t) :
  frame_to_numpy f = Done a →
  Numpy.shape a = [Frame.height f; Frame.width f; 3]
  ∧ Numpy.strides a = [CInt.int_mul (Frame.width f) 3; 3; 1]
  ∧ Numpy.owndata a = true.
Proof.
  unfold frame_to_numpy, Numpy.array_new.
  destruct (forallb _ _); [|done]. cbn.
  destruct (copy_loop _ _ _); [|done..]. cbn. by intros [= <-].
Qed.

(** The statement of C1 as it is worded fails on the frame with
    [width = 715827883], [height = 0] and empty [data]: its row size
    [width * 3] does not fit an [int], and the strides of the array are
    [(-2147483647, 3, 1)], not [(width * 3, 3, 1)]. *)
Lemma every_frame_exposes_packed_rgb_fails : ¬ every_frame_exposes_packed_rgb.
Proof.
  intros Hclaim.
  destruct (Hclaim Samples.frame_wide eq_refl) as (a & Ha & _ & Hstrides & _).
  vm_compute in Ha. injection Ha as <-. discriminate Hstrides.
Qed.

(** Python code can build that frame and read its [data]. *)
Lemma frame_wide_from_python :
  heap (Samples.after
          [Frame_init; Frame_set 1%positive PyFrame.width (PyInt 715827883)]
          (mk_pystate ∅ Samples.world0)) !! 1%positive
  = Some (FrameObj Samples.frame_wide)
  ∧ heap (Samples.after
            [Frame_init; Frame_set 1%positive PyFrame.width (PyInt 715827883);
             Frame_data 1%positive]
            (mk_pystate ∅ Samples.world0)) !! 2%positive
    = Some (ArrayObj (Numpy.mk_array [0; 715827883; 3] [-2147483647; 3; 1] true [])).
Proof. split; vm_compute; reflexivity. Qed.

(** The same strides come out for every frame of that width, whatever its
    height and data. *)
Lemma frame_to_numpy_wide_strides (f : Frame.t) (a : Numpy.array_t) :
  Frame.width f = 715827883 → frame_to_numpy f = Done a →
  Numpy.strides a = [-2147483647; 3; 1].
Proof.
  intros Hw Ha. destruct (frame_to_numpy_shape_strides f a Ha) as (_ & -> & _).
  by rewrite Hw.
Qed.

(** A frame with a negative dimension is not exposed at all: numpy rejects
    the shape. *)
Lemma frame_to_numpy_negative :
  Z.of_nat (length (Frame.data Samples.frame_negative))
  = Frame.width Samples.frame_negative * Frame.height Samples.frame_negative * 3
  ∧ frame_to_numpy Samples.frame_negative = Raised ValueError.
Proof. split; reflexivity. Qed.

(** C1, amended. For every frame whose [width] and [height] are non-negative
    [int]s, whose row size [width * 3] fits an [int], and whose [data] holds
    [width * height * 3] bytes, the exposed buffer is a 3-dimensional array
    of unsigned 8-bit values with shape [(height, width, 3)] and strides
    [(width * 3, 3, 1)], and its element at [(i, j, k)] is byte
    [i * width * 3 + j * 3 + k] of the data: row-major packed RGB without
    padding. *)
Theorem frame_to_numpy_packed (f : Frame.t) :
  0 <= Frame.width f → 0 <= Frame.height f → CInt.int_range (Frame.height f) →
  Frame.width f * 3 <= CInt.INT_MAX →
  Z.of_nat (length (Frame.data f)) = Frame.width f * Frame.height f * 3 →
  exposes_packed_rgb f
  ∧ ∀ a, frame_to_numpy f = Done a → Numpy.buffer a = Frame.data f.
Proof.
  intros Hw0 Hh0 Hh Hw3 Hlen.
  destruct (frame_to_numpy_copies f Hw0 Hh0 Hh Hw3 Hlen)
    as (a & Ha & Hshape & Hstrides & _ & Hbuf & Hitem).
  split.
  - exists a. done.
  - intros a' Ha'. rewrite Ha in Ha'. by injection Ha' as <-.
Qed.

Lemma frame_to_numpy_packed_witness :
  0 <= Frame.width Samples.frame_2x2
  ∧ 0 <= Frame.height Samples.frame_2x2
  ∧ CInt.int_range (Frame.height Samples.frame_2x2)
  ∧ Frame.width Samples.frame_2x2 * 3 <= CInt.INT_MAX
  ∧ Z.of_nat (length (Frame.data Samples.frame_2x2))
    = Frame.width Samples.frame_2x2 * Frame.height Samples.frame_2x2 * 3
  ∧ exposes_packed_rgb Samples.frame_2x2.
Proof.
  assert (H1 : 0 <= Frame.width Samples.frame_2x2) by (simpl; lia).
  assert (H2 : 0 <= Frame.height Samples.frame_2x2) by (simpl; lia).
  assert (H3 : CInt.int_range (Frame.height Samples.frame_2x2))
    by (unfold CInt.int_range, CInt.INT_MIN, CInt.INT_MAX; simpl; lia).
  assert (H4 : Frame.width Samples.frame_2x2 * 3 <= CInt.INT_MAX)
    by (unfold CInt.INT_MAX; simpl; lia).
  assert (H5 : Z.of_nat (length (Frame.data Samples.frame_2x2))
               = Frame.width Samples.frame_2x2 * Frame.height Samples.frame_2x2 * 3)
    by reflexivity.
  repeat (split; [assumption|]).
  exact (proj1 (frame_to_numpy_packed Samples.frame_2x2 H1 H2 H3 H4 H5)).
Defined.

(** ** Native resources *)

Lemma world_eta (w : world) : mk_world (fs w) (natives w) = w.
Proof. by destruct w. Qed.

Lemma alloc_fresh (o : native) (w : world) : natives w !! (alloc o w).1 = None.
Proof. unfold alloc. simpl. apply not_elem_of_dom, is_fresh. Qed.

Lemma alloc_lookup_new (o : native) (w : world) :
  natives (alloc o w).2 !! (alloc o w).1 = Some o.
Proof. unfold alloc. simpl. apply lookup_insert_eq. Qed.

Lemma alloc_lookup_old (o : native) (w : world) (k : handle) (x : native) :
  natives w !! k = Some x → natives (alloc o w).2 !! k = Some x.
Proof.
  intros Hk. unfold alloc. simpl. rewrite lookup_insert_ne; [done|].
  intros Heq. pose proof (alloc_fresh o w) as Hf. unfold alloc in Hf. simpl in Hf.
  rewrite Heq in Hf. congruence.
Qed.

Lemma alloc_fs (o : native) (w : world) : fs (alloc o w).2 = fs w.
Proof. done. Qed.

Lemma alloc_release (o : native) (w : world) :
  release (Some (alloc o w).1) (natives (alloc o w).2) = natives w.
Proof. unfold alloc. simpl. apply delete_insert_id, not_elem_of_dom, is_fresh. Qed.

(** ** The life cycle of a session *)

Import CppVideoReader.

Lemma cleanup_init (w : world) : cleanup (w, init) = (w, init).
Proof. unfold cleanup. simpl. by rewrite world_eta. Qed.

Lemma cleanup_closed (s : session) : (cleanup s).2 = init.
Proof. by destruct s. Qed.

Lemma cleanup_fs (s : session) : fs (cleanup s).1 = fs s.1.
Proof. by destruct s. Qed.

Lemma wf_closed (s : session) : wf s → is_open s.2 = false → s.2 = init.
Proof. unfold wf. intros H Ho. by rewrite Ho in H. Qed.

Lemma wf_open (s : session) :
  wf s → is_open s.2 = true → ∃ h c cur, position s = Some (h, c, cur).
Proof. unfold wf. intros H Ho. rewrite Ho in H. destruct H as [[[h c] cur] Hp]. eauto. Qed.

Lemma position_is_open (s : session) (x : handle * container * nat) :
  position s = Some x → is_open s.2 = true.
Proof.
  unfold position, is_open. destruct (format_ctx_ s.2); simpl; [done|discriminate].
Qed.

Lemma position_wf (s : session) (x : handle * container * nat) :
  position s = Some x → wf s.
Proof. intros Hp. unfold wf. rewrite (position_is_open _ _ Hp). eauto. Qed.

Lemma position_lookup (s : session) (h : handle) (c : container) (cur : nat) :
  position s = Some (h, c, cur) ↔
  format_ctx_ s.2 = Some h ∧ natives s.1 !! h = Some (FormatContext c cur).
Proof.
  unfold position. destruct (format_ctx_ s.2) as [h'|]; simpl.
  - destruct (natives s.1 !! h') as [[c' cur'| | | |]|] eqn:Hn;
      (split; [intros [=]|intros [[=] Hl]]); subst; try done.
    + rewrite Hn in Hl. by injection Hl as -> ->.
    + by rewrite Hn in Hl.
    + by rewrite Hn in Hl.
    + by rewrite Hn in Hl.
    + by rewrite Hn in Hl.
    + by rewrite Hn in Hl.
  - split; [done|]. by intros [? _].
Qed.

Lemma position_set_cursor (s : session) (h : handle) (c : container) (cur cur' : nat)
    (r : t) :
  position s = Some (h, c, cur) → format_ctx_ r = format_ctx_ s.2 →
  position (set_cursor h c cur' s.1, r) = Some (h, c, cur').
Proof.
  intros [Hf Hn]%position_lookup Hr. apply position_lookup. simpl.
  rewrite Hr. split; [done|]. apply lookup_insert_eq.
Qed.

Lemma position_alloc (s : session) (o : native) (r : t) (x : handle * container * nat) :
  position s = Some x → format_ctx_ r = format_ctx_ s.2 →
  position ((alloc o s.1).2, r) = Some x.
Proof.
  destruct x as [[h c] cur]. intros [Hf Hn]%position_lookup Hr.
  apply position_lookup. simpl. rewrite Hr. split; [done|].
  by apply alloc_lookup_old.
Qed.

(** One step of the decoder, by the packet under the cursor. *)
Lemma decode_frame_end (s : session) (h : handle) (c : container) (cur : nat) :
  position s = Some (h, c, cur) → packets c !! cur = None →
  decode_frame s = (Done None, s).
Proof. intros Hp Hc. unfold decode_frame. by rewrite Hp, Hc. Qed.

Lemma decode_frame_corrupt (s : session) (h : handle) (c : container) (cur : nat) :
  position s = Some (h, c, cur) → packets c !! cur = Some Corrupt →
  ∃ s', decode_frame s = (Raised DecodeError, s')
        ∧ position s' = Some (h, c, S cur).
Proof.
  intros Hp Hc. unfold decode_frame. rewrite Hp, Hc. eexists. split; [done|].
  by eapply position_set_cursor.
Qed.

Lemma ensure_sws_cases (c : container) (s : session) :
  (ensure_sws c s = (Raised UnsupportedFormatError, s)
   ∧ sws_ctx_ s.2 = None ∧ convertible c = false)
  ∨ (∃ s', ensure_sws c s = (Done (), s')
           ∧ format_ctx_ s'.2 = format_ctx_ s.2
           ∧ (∀ x, position s = Some x → position s' = Some x)).
Proof.
  unfold ensure_sws. destruct (sws_ctx_ s.2) eqn:Hs.
  - right. exists s. done.
  - destruct (convertible c) eqn:Hc; [right|left; done].
    destruct (alloc SwsContext s.1) as [h' w'] eqn:Ha.
    eexists. split; [done|]. split; [done|].
    intros x Hx. pose proof (position_alloc s SwsContext (set_sws_ctx (Some h') s.2) x Hx) as Hp.
    rewrite Ha in Hp. by apply Hp.
Qed.

Lemma decode_frame_picture (s : session) (h : handle) (c : container) (cur : nat)
    (p : picture) :
  position s = Some (h, c, cur) → packets c !! cur = Some (Decodable p) →
  (decode_frame s = (Raised UnsupportedFormatError, s) ∧ convertible c = false)
  ∨ (∃ s', decode_frame s =
             (Done (Some (Frame.mk (Z.of_nat cur) (pic_pts p) (pic_dts p) (pic_rgb p)
                            (VideoMetadata.width (probe c))
                            (VideoMetadata.height (probe c)))), s')
           ∧ position s' = Some (h, c, S cur)).
Proof.
  intros Hp Hc. unfold decode_frame. rewrite Hp, Hc.
  destruct (ensure_sws_cases c s) as [(-> & _ & Hconv)|(s' & -> & Hf & Hpos)].
  - left. done.
  - right. eexists. split; [done|].
    apply (position_set_cursor s' h c cur); [by apply Hpos|done].
Qed.

(** With more fuel than packets left, the read loop ends by itself; it keeps
    the container, and a frame it returns is the one at the index asked. *)
Lemma read_loop_spec (fuel : nat) (index : Z) (s : session) (h : handle)
    (c : container) (cur : nat) :
  position s = Some (h, c, cur) → (length (packets c) - cur < fuel)%nat →
  Z.of_nat cur <= index →
  ∃ o s' cur', read_loop fuel index s = Some (o, s')
    ∧ position s' = Some (h, c, cur') ∧ (cur <= cur')%nat
    ∧ match o with
      | Done (Some f) =>
          ∃ p, packets c !! Z.to_nat index = Some (Decodable p)
               ∧ f = Frame.mk index (pic_pts p) (pic_dts p) (pic_rgb p)
                       (VideoMetadata.width (probe c)) (VideoMetadata.height (probe c))
               ∧ cur' = S (Z.to_nat index)
      | Done None =>
          (length (packets c) <= cur')%nat
          ∧ ∀ i, (cur <= i)%nat → packets c !! i ≠ Some Corrupt
      | Raised e =>
          (e = DecodeError ∧ ∃ i, (cur <= i)%nat ∧ packets c !! i = Some Corrupt)
          ∨ (e = UnsupportedFormatError ∧ convertible c = false
             ∧ ∃ i, (cur <= i)%nat ∧ is_Some (packets c !! i))
      | Undefined _ => False
      end.
Proof.
  revert s cur. induction fuel as [|fuel IH]; intros s cur Hp Hfuel Hidx; [lia|].
  simpl. destruct (packets c !! cur) as [[p|]|] eqn:Hc.
  - destruct (decode_frame_picture s h c cur p Hp Hc) as [[-> Hconv]|(s' & -> & Hp')].
    + exists (Raised UnsupportedFormatError), s, cur.
      split; [done|]. split; [done|]. split; [lia|]. right.
      split; [done|]. split; [done|]. exists cur. split; [lia|]. by rewrite Hc.
    + cbn [Frame.index]. destruct (Z.eqb_spec (Z.of_nat cur) index) as [Heq|Hne].
      * exists (Done (Some (Frame.mk (Z.of_nat cur) (pic_pts p) (pic_dts p) (pic_rgb p)
                    (VideoMetadata.width (probe c)) (VideoMetadata.height (probe c))))),
          s', (S cur).
        split; [done|]. split; [done|]. split; [lia|].
        exists p. subst index. rewrite Nat2Z.id. done.
      * pose proof (lookup_lt_Some _ _ _ Hc) as Hlt.
        destruct (IH s' (S cur) Hp') as (o & s'' & cur' & Hl & Hp'' & Hle & Ho); [lia..|].
        exists o, s'', cur'. split; [done|]. split; [done|]. split; [lia|].
        destruct o as [[f|]| |]; try done.
        -- destruct Ho as [Hend Hclean]. split; [done|].
           intros i Hi. destruct (decide (i = cur)) as [->|]; [congruence|].
           apply Hclean. lia.
        -- destruct Ho as [(-> & i & Hi & Hcor)|(-> & Hconv & i & Hi & Hsome)];
             [left|right]; (split; [done|]).
           ++ exists i. split; [lia|done].
           ++ split; [done|]. exists i. split; [lia|done].
  - destruct (decode_frame_corrupt s h c cur Hp Hc) as (s' & -> & Hp').
    exists (Raised DecodeError), s', (S cur). split; [done|]. split; [done|].
    split; [lia|]. left. eauto.
  - rewrite (decode_frame_end s h c cur Hp Hc).
    exists (Done None), s, cur. split; [done|]. split; [done|]. split; [lia|].
    split; [by apply lookup_ge_None|].
    intros i Hi. apply lookup_ge_None in Hc.
    rewrite (proj2 (lookup_ge_None _ _)); [done|lia].
Qed.

(** [read_frame] on an open session. *)
Lemma read_frame_spec (index : Z) (s : session) (h : handle) (c : container)
    (cur : nat) :
  position s = Some (h, c, cur) →
  ∃ o s' cur', read_frame index s = (o, s')
    ∧ position s' = Some (h, c, cur') ∧ (cur <= cur')%nat
    ∧ match o with
      | Done (Some f) =>
          ∃ p, packets c !! Z.to_nat index = Some (Decodable p)
               ∧ f = Frame.mk index (pic_pts p) (pic_dts p) (pic_rgb p)
                       (VideoMetadata.width (probe c)) (VideoMetadata.height (probe c))
               ∧ Z.of_nat cur <= index ∧ cur' = S (Z.to_nat index)
      | Done None =>
          index < Z.of_nat cur
          ∨ ((length (packets c) <= cur')%nat
             ∧ ∀ i, (cur <= i)%nat → packets c !! i ≠ Some Corrupt)
      | Raised e =>
          (e = DecodeError ∧ ∃ i, (cur <= i)%nat ∧ packets c !! i = Some Corrupt)
          ∨ (e = UnsupportedFormatError ∧ convertible c = false
             ∧ ∃ i, (cur <= i)%nat ∧ is_Some (packets c !! i))
      | Undefined _ => False
      end.
Proof.
  intros Hp. unfold read_frame. rewrite Hp.
  destruct (Z.ltb_spec index (Z.of_nat cur)) as [Hlt|Hge].
  - exists (Done None), s, cur.
    split; [done|]. split; [done|]. split; [lia|]. by left.
  - destruct (read_loop_spec (S (remaining s)) index s h c cur Hp)
      as (o & s' & cur' & -> & Hp' & Hle & Ho); [unfold remaining; rewrite Hp; lia|done|].
    simpl. exists o, s', cur'. split; [done|]. split; [done|]. split; [done|].
    destruct o as [[f|]| |]; try done.
    + destruct Ho as (p & ? & ? & ?). exists p. done.
    + by right.
Qed.

Lemma read_frame_closed (index : Z) (s : session) :
  position s = None → read_frame index s = (Done None, s).
Proof. intros Hp. unfold read_frame. by rewrite Hp. Qed.

(** [open] either fails and leaves what [cleanup] leaves, or succeeds on a
    recognized container and leaves an open session at its first packet. *)
Lemma open_cases (path : string) (s : session) :
  (∃ e, open path s = (Raised e, cleanup s)
        ∧ (e = OpenError ∨ e = NoVideoStreamError))
  ∨ (∃ c s' h, fs s.1 !! path = Some (Media c)
        ∧ open path s = (Done (probe c), s')
        ∧ position s' = Some (h, c, 0%nat)
        ∧ metadata_ s'.2 = Some (probe c)).
Proof.
  unfold open. destruct (cleanup s) as [w0 r0] eqn:Hcl.
  assert (Hr0 : r0 = init) by (pose proof (cleanup_closed s) as H; by rewrite Hcl in H).
  assert (Hfs : fs w0 = fs s.1) by (pose proof (cleanup_fs s) as H; by rewrite Hcl in H).
  subst r0. cbn [fst snd].
  destruct (String.eqb path EmptyString); [left; eauto|].
  rewrite Hfs. destruct (fs s.1 !! path) as [[|c]|] eqn:Hfile; [left; eauto| |left; eauto].
  assert (Hback : ∀ i,
    cleanup ((alloc (FormatContext c 0) w0).2,
             set_video_stream_index i
               (set_format_ctx (Some (alloc (FormatContext c 0) w0).1) init))
    = (w0, init)).
  { intros i. unfold cleanup. cbn [format_ctx_ codec_ctx_ frame_ rgb_frame_ packet_
      sws_ctx_ set_video_stream_index set_format_ctx init release].
    pose proof (alloc_release (FormatContext c 0) w0) as Hrel. cbn [release] in Hrel.
    rewrite Hrel, alloc_fs. by rewrite world_eta. }
  destruct (alloc (FormatContext c 0) w0) as [h w1] eqn:Ha.
  cbn [fst snd] in *.
  destruct (find_video_stream (streams c) 0) as [i|] eqn:Hfind.
  - unfold initialize_codec. cbn [fst snd].
    destruct (has_decoder c).
    + right. exists c. 
      destruct (alloc CodecContext w1) as [hc w2] eqn:H2.
      destruct (alloc AVFrame w2) as [hf w3] eqn:H3.
      destruct (alloc AVFrame w3) as [hr w4] eqn:H4.
      destruct (alloc AVPacket w4) as [hp w5] eqn:H5.
      eexists. exists h. split; [done|]. split; [done|]. split; [|done].
      apply position_lookup. cbn. split; [done|].
      assert (H1 : natives w1 !! h = Some (FormatContext c 0)).
      { pose proof (alloc_lookup_new (FormatContext c 0) w0) as Hn. by rewrite Ha in Hn. }
      pose proof (alloc_lookup_old CodecContext w1 h _ H1) as Hn2. rewrite H2 in Hn2.
      pose proof (alloc_lookup_old AVFrame w2 h _ Hn2) as Hn3. rewrite H3 in Hn3.
      pose proof (alloc_lookup_old AVFrame w3 h _ Hn3) as Hn4. rewrite H4 in Hn4.
      pose proof (alloc_lookup_old AVPacket w4 h _ Hn4) as Hn5. rewrite H5 in Hn5.
      done.
    + left. exists OpenError. rewrite Hback. eauto.
  - left. exists NoVideoStreamError. split; [|by right].
    specialize (Hback 0). unfold cleanup in *. cbn in *. by rewrite Hback.
Qed.

Lemma seek_cases (timestamp : Q) (s : session) (h : handle) (c : container)
    (cur : nat) :
  position s = Some (h, c, cur) →
  (seek timestamp s = (Done false, s)
   ∧ (seekable c = false ∨ Qle_bool 0 timestamp = false))
  ∨ (∃ s' cur', seek timestamp s = (Done true, s')
       ∧ seekable c = true ∧ Qle_bool 0 timestamp = true
       ∧ position s' = Some (h, c, cur')
       ∧ (Qle_bool timestamp (VideoMetadata.duration (probe c)) = false
          → cur' = length (packets c))).
Proof.
  intros Hp. unfold seek. rewrite Hp.
  destruct (seekable c); simpl; [|left; auto].
  destruct (Qle_bool 0 timestamp); simpl; [|left; auto].
  right. eexists _, _. split; [done|]. split; [done|]. split; [done|].
  split; [by eapply position_set_cursor|].
  by intros ->.
Qed.


Lemma reachable_wf (s : session) : reachable s → wf s.
Proof.
  induction 1 as [w|path s _ IH|index s _ IH|timestamp s _ IH|s _ IH].
  - done.
  - destruct (open_cases path s) as [(e & -> & _)|(c & s' & h & _ & -> & Hp & _)].
    + change (wf (cleanup s)). unfold wf. rewrite cleanup_closed. reflexivity.
    + by eapply position_wf.
  - destruct (position s) as [[[h c] cur]|] eqn:Hp.
    + destruct (read_frame_spec index s h c cur Hp) as (o & s' & cur' & -> & Hp' & _).
      by eapply position_wf.
    + by rewrite read_frame_closed.
  - destruct (position s) as [[[h c] cur]|] eqn:Hp.
    + destruct (seek_cases timestamp s h c cur Hp)
        as [[-> _]|(s' & cur' & -> & _ & _ & Hp' & _)]; [done|].
      by eapply position_wf.
    + unfold seek. by rewrite Hp.
  - unfold close. destruct (is_open s.2) eqn:Hopen; [|done].
    change (wf (cleanup s)). unfold wf. rewrite cleanup_closed. reflexivity.
Qed.

(** An open session that a program can reach has a position: a container
    and a decode cursor. *)
Lemma open_session (s : session) :
  reachable s → is_open s.2 = true → ∃ h c cur, position s = Some (h, c, cur).
Proof. intros Hr. apply wf_open, reachable_wf, Hr. Qed.

(** ** [close] *)

(** C5. [close()] never raises and leaves the reader closed; a second
    consecutive [close()] never raises, changes nothing and leaves the reader
    closed, so that closing twice equals closing once; on a reader that is
    already closed [close()] is a no-op. *)
Theorem close_idempotent (s : session) :
  (close s).1 = Done ()
  ∧ is_open (close s).2.2 = false
  ∧ close (close s).2 = (Done (), (close s).2)
  ∧ is_open (close (close s).2).2.2 = false
  ∧ (if is_open s.2 then (close s).2 = cleanup s else close s = (Done (), s)).
Proof.
  unfold close. destruct (is_open s.2) eqn:Ho; cbn [fst snd].
  - rewrite !cleanup_closed. cbn. by rewrite cleanup_closed.
  - rewrite Ho. done.
Qed.

(** ** [open] *)

(** C3. When [open(path)] fails it raises OpenError or NoVideoStreamError,
    the reader is closed and holds nothing (it is as a new reader), and the
    native resources are exactly those left by releasing what the reader held
    before the call: nothing acquired during the call is retained.  On a
    closed reader the failed call leaves the whole session unchanged. *)
Theorem open_failure_atomic (path : string) (s s' : session) (e : py_exception) :
  reachable s → open path s = (Raised e, s') →
  (e = OpenError ∨ e = NoVideoStreamError)
  ∧ is_open s'.2 = false
  ∧ s'.2 = init
  ∧ natives s'.1 = natives (cleanup s).1
  ∧ (is_open s.2 = false → s' = s).
Proof.
  intros Hr Hopen.
  destruct (open_cases path s) as [(e' & He & Hkind)|(c & s'' & h & _ & He & _)];
    rewrite He in Hopen; [|done].
  injection Hopen as -> <-. split; [done|].
  rewrite cleanup_closed. repeat split.
  intros Hclosed. pose proof (wf_closed s (reachable_wf s Hr) Hclosed) as Hinit.
  destruct s as [w r]. simpl in Hinit. subst r. apply cleanup_init.
Qed.

Lemma open_failure_atomic_witness :
  reachable (Samples.world0, init)
  ∧ open "song.mp3" (Samples.world0, init)
    = (Raised NoVideoStreamError, (Samples.world0, init))
  ∧ is_open init = false
  ∧ natives Samples.world0 = natives (cleanup (Samples.world0, init)).1.
Proof.
  assert (Ho : open "song.mp3" (Samples.world0, init)
               = (Raised NoVideoStreamError, (Samples.world0, init)))
    by (vm_compute; reflexivity).
  destruct (open_failure_atomic "song.mp3" (Samples.world0, init)
              (Samples.world0, init) NoVideoStreamError (reach_init _) Ho)
    as (_ & Hclosed & _ & Hnat & _).
  split; [apply reach_init|]. split; [exact Ho|]. split; [exact Hclosed|exact Hnat].
Defined.

(** ** [read_frame] *)

(** The session decodes [c] exactly when its position names [c]. *)
Lemma container_of_position (s : session) (c : container) :
  container_of s = Some c → ∃ h cur, position s = Some (h, c, cur).
Proof.
  unfold container_of. destruct (position s) as [[[h c'] cur]|]; simpl; [|done].
  intros [= ->]. eauto.
Qed.

(** The statement of C2 as it is worded fails: on a stream with a corrupt
    packet, [read_frame] beyond the last frame raises DecodeError. *)
Lemma absent_beyond_last_frame_fails : ¬ absent_beyond_last_frame.
Proof.
  intros Hclaim.
  specialize (Hclaim (Samples.opened "damaged.mp4") Samples.damaged 5).
  assert (Hraise : (read_frame 5 (Samples.opened "damaged.mp4")).1 = Raised DecodeError)
    by (vm_compute; reflexivity).
  rewrite Hclaim in Hraise; [discriminate| | | |].
  - apply reach_open, reach_init.
  - vm_compute; reflexivity.
  - vm_compute; reflexivity.
  - intros [|[|i]] p Hp; [lia|discriminate Hp|discriminate Hp].
Qed.

(** C2, amended. For every open session and every index beyond the last
    decodable frame, [read_frame(index)] never returns a frame (there is no
    wrap-around to frame 0 or to any other frame): it returns absent, or it
    raises the error of a packet it had to decode on the way (DecodeError for
    a corrupt packet, UnsupportedFormatError for a pixel format without
    conversion).  When no packet from the cursor on is corrupt and the pixel
    format is convertible, it returns absent. *)
Theorem read_frame_beyond_last (s : session) (h : handle) (c : container)
    (cur : nat) (index : Z) :
  position s = Some (h, c, cur) → beyond_last_frame c index →
  (∀ f, (read_frame index s).1 ≠ Done (Some f))
  ∧ ((read_frame index s).1 = Done None
     ∨ (read_frame index s).1 = Raised DecodeError
     ∨ (read_frame index s).1 = Raised UnsupportedFormatError)
  ∧ (clean_from c cur → convertible c = true → (read_frame index s).1 = Done None).
Proof.
  intros Hp Hbeyond.
  destruct (read_frame_spec index s h c cur Hp) as (o & s' & cur' & -> & _ & _ & Ho).
  cbn [fst]. destruct o as [[f|]|e|u]; try done.
  - destruct Ho as (p & Hlk & _ & Hcur & _).
    specialize (Hbeyond _ _ Hlk). lia.
  - split; [done|]. split; [by left|done].
  - split; [done|]. destruct Ho as [(-> & i & Hi & Hcor)|(-> & Hconv & _)].
    + split; [right; by left|]. intros Hclean _. by destruct (Hclean i Hi).
    + split; [right; by right|]. intros _ Hc. congruence.
Qed.

Lemma read_frame_beyond_last_witness :
  position (Samples.opened "clip.mp4") = Some (1%positive, Samples.clip, 0%nat)
  ∧ beyond_last_frame Samples.clip 3
  ∧ (read_frame 3 (Samples.opened "clip.mp4")).1 = Done None.
Proof.
  assert (Hp : position (Samples.opened "clip.mp4")
               = Some (1%positive, Samples.clip, 0%nat)) by (vm_compute; reflexivity).
  assert (Hb : beyond_last_frame Samples.clip 3).
  { intros [|[|[|i]]] p Hlk; [lia|lia|lia|discriminate Hlk]. }
  split; [exact Hp|]. split; [exact Hb|].
  apply (read_frame_beyond_last _ _ _ _ 3 Hp Hb); [|reflexivity].
  intros [|[|[|i]]] _ Hlk; discriminate Hlk.
Defined.

(** ** [seek] *)

(** The statement of C4 as it is worded fails: on a container that reports
    seeking as unsupported, [seek(0)] returns false. *)
Lemma seek_in_range_succeeds_fails : ¬ seek_in_range_succeeds.
Proof.
  intros Hclaim.
  specialize (Hclaim (Samples.opened "live.ts") Samples.live 0%Q).
  assert (Hfalse : (seek 0 (Samples.opened "live.ts")).1 = Done false)
    by (vm_compute; reflexivity).
  rewrite Hclaim in Hfalse; [discriminate| | | | |].
  - apply reach_open, reach_init.
  - vm_compute; reflexivity.
  - vm_compute; reflexivity.
  - apply Qle_refl.
  - vm_compute. discriminate.
Qed.

Lemma Qle_bool_false (x y : Q) : (y < x)%Q → Qle_bool x y = false.
Proof.
  intros Hlt. destruct (Qle_bool x y) eqn:Hb; [|done].
  apply Qle_bool_iff in Hb. by apply Qlt_not_le in Hlt.
Qed.

Lemma read_frame_at_end (index : Z) (s : session) (h : handle) (c : container) :
  position s = Some (h, c, length (packets c)) →
  (read_frame index s).1 = Done None.
Proof.
  intros Hp.
  destruct (read_frame_spec index s h c _ Hp) as (o & s' & cur' & -> & _ & Hle & Ho).
  cbn [fst]. destruct o as [[f|]|e|u]; try done.
  - destruct Ho as (p & Hlk & _ & Hcur & _).
    apply lookup_lt_Some in Hlk. lia.
  - destruct Ho as [(_ & i & Hi & Hlk)|(_ & _ & i & Hi & [x Hlk])];
      apply lookup_lt_Some in Hlk; lia.
Qed.

(** C4, amended. For every open session, [seek(t)] never raises.  It returns
    false when the container reports the seek as unsupported, or as out of
    range for a negative time.  On a container that supports seeking it
    returns true for every [t] with [0 <= t <= duration].  For [t > duration]
    it returns false, or else every subsequent [read_frame] returns absent. *)
Theorem seek_result (s : session) (h : handle) (c : container) (cur : nat) (t : Q) :
  position s = Some (h, c, cur) →
  (∃ b, (seek t s).1 = Done b)
  ∧ (seekable c = false → (seek t s).1 = Done false)
  ∧ ((t < 0)%Q → (seek t s).1 = Done false)
  ∧ (seekable c = true → (0 <= t)%Q → (t <= VideoMetadata.duration (probe c))%Q →
       (seek t s).1 = Done true)
  ∧ ((VideoMetadata.duration (probe c) < t)%Q →
       (seek t s).1 = Done false
       ∨ ∀ index, (read_frame index (seek t s).2).1 = Done None).
Proof.
  intros Hp.
  destruct (seek_cases t s h c cur Hp)
    as [[-> Hwhy]|(s' & cur' & -> & Hseek & Hpos & Hp' & Hend)]; cbn [fst snd].
  - split; [by eexists|]. split; [done|]. split; [done|]. split; [|by left].
    intros Hs H0 _. destruct Hwhy as [Hwhy|Hwhy]; [congruence|].
    apply Qle_bool_iff in H0. congruence.
  - split; [by eexists|]. split; [congruence|]. split.
    { intros Hneg. apply Qle_bool_false in Hneg. congruence. }
    split; [done|]. intros Hpast. right. intros index.
    apply (read_frame_at_end index s' h c).
    by rewrite <- (Hend (Qle_bool_false _ _ Hpast)).
Qed.

Lemma seek_result_witness :
  position (Samples.opened "clip.mp4") = Some (1%positive, Samples.clip, 0%nat)
  ∧ (seek (1 # 30) (Samples.opened "clip.mp4")).1 = Done true
  ∧ ∀ index, (read_frame index (seek 1 (Samples.opened "clip.mp4")).2).1 = Done None.
Proof.
  assert (Hp : position (Samples.opened "clip.mp4")
               = Some (1%positive, Samples.clip, 0%nat)) by (vm_compute; reflexivity).
  split; [exact Hp|]. split.
  - apply (seek_result _ _ _ _ (1 # 30)%Q Hp); [reflexivity|discriminate|discriminate].
  - destruct (seek_result _ _ _ _ 1%Q Hp) as (_ & _ & _ & _ & Hpast).
    destruct Hpast as [Hfalse|Habsent]; [reflexivity| |exact Habsent].
    vm_compute in Hfalse. discriminate Hfalse.
Defined.

(** ** The Python heap *)

Lemma new_object_spec (o : pyobject) (σ : pystate) :
  ∃ l, new_object o σ = (Done (PyRef l), mk_pystate (<[l := o]> (heap σ)) (wld σ))
       ∧ heap σ !! l = None.
Proof.
  exists (fresh (dom (heap σ))). split; [done|]. apply not_elem_of_dom, is_fresh.
Qed.

Lemma new_object_lookup (o x : pyobject) (σ : pystate) (l : loc) :
  heap σ !! l = Some x → heap (new_object o σ).2 !! l = Some x.
Proof.
  intros Hl. destruct (new_object_spec o σ) as (l' & -> & Hfresh). simpl.
  rewrite lookup_insert_ne; [done|]. intros ->. congruence.
Qed.

Lemma put_reader_lookup (self l : loc) (s : session) (σ : pystate) (x : pyobject) :
  heap σ !! l = Some x → l ≠ self → heap (put_reader self s σ) !! l = Some x.
Proof. intros Hl Hne. unfold put_reader. simpl. by rewrite lookup_insert_ne. Qed.

Lemma put_reader_self (self : loc) (s : session) (σ : pystate) :
  heap (put_reader self s σ) !! self = Some (ReaderObj s.2).
Proof. unfold put_reader. simpl. apply lookup_insert_eq. Qed.

Lemma exec_touches (c : call) (σ : pystate) (l : loc) (o : pyobject) :
  heap σ !! l = Some o →
  heap (exec c σ).2 !! l = Some o
  ∨ ∃ o', touches l c o o' ∧ heap (exec c σ).2 !! l = Some o'.
Proof.
  intros Hl. destruct c; cbn [exec];
    try (left; by apply new_object_lookup);
    unfold with_metadata, with_frame, with_reader;
    (destruct (decide (self = l)) as [->|Hne];
     [rewrite Hl; destruct o; try (by left)
     |destruct (heap σ !! self) as [[]|]; try (by left)]).
  - destruct (PyVideoMetadata.setattr a v m) eqn:Hs; [|by left].
    right. eexists. split; [by constructor|]. simpl. apply lookup_insert_eq.
  - destruct (PyVideoMetadata.setattr _ _ _); [|by left].
    left. simpl. by rewrite lookup_insert_ne.
  - destruct (PyFrame.setattr a v f) eqn:Hs; [|by left].
    right. eexists. split; [by constructor|]. simpl. apply lookup_insert_eq.
  - destruct (PyFrame.setattr _ _ _); [|by left].
    left. simpl. by rewrite lookup_insert_ne.
  - destruct (frame_to_numpy f); try (by left). left. by apply new_object_lookup.
  - destruct (frame_to_numpy _); try (by left). left. by apply new_object_lookup.
  - destruct (open path (wld σ, r)) as [res s] eqn:Ho. right.
    exists (ReaderObj s.2). split; [constructor|].
    destruct res; [apply new_object_lookup|..]; apply put_reader_self.
  - destruct (open path _) as [res s] eqn:Ho. left.
    destruct res; [apply new_object_lookup|..]; by apply put_reader_lookup.
  - destruct (CInt.is_int index); [|by left].
    destruct (read_frame index (wld σ, r)) as [res s] eqn:Ho. right.
    exists (ReaderObj s.2). split; [constructor|].
    destruct res as [[f'|]| |]; [apply new_object_lookup|..]; apply put_reader_self.
  - destruct (CInt.is_int index); [|by left].
    destruct (read_frame index _) as [res s] eqn:Ho. left.
    destruct res as [[f'|]| |]; [apply new_object_lookup|..]; by apply put_reader_lookup.
  - destruct (seek timestamp (wld σ, r)) as [res s] eqn:Ho. right.
    exists (ReaderObj s.2). split; [constructor|]. apply put_reader_self.
  - destruct (seek timestamp _) as [res s] eqn:Ho. left. by apply put_reader_lookup.
  - destruct (close (wld σ, r)) as [res s] eqn:Ho. right.
    exists (ReaderObj s.2). split; [|apply put_reader_self].
    replace s with (close (wld σ, r)).2 by (by rewrite Ho). constructor.
  - destruct (close _) as [res s] eqn:Ho. left. by apply put_reader_lookup.
  - destruct (close (wld σ, r)) as [res s] eqn:Ho. right.
    exists (ReaderObj s.2). split; [|apply put_reader_self].
    replace s with (close (wld σ, r)).2 by (by rewrite Ho). constructor.
  - destruct (close _) as [res s] eqn:Ho. left. by apply put_reader_lookup.
Qed.

Lemma array_setitem_lookup (arr l : loc) (idx : list Z) (v : byte) (σ : pystate)
    (o : pyobject) :
  heap σ !! l = Some o → (∀ a, o ≠ ArrayObj a) ∨ l ≠ arr →
  heap (array_setitem arr idx v σ).2 !! l = Some o.
Proof.
  intros Hl Hwhy. unfold array_setitem.
  destruct (heap σ !! arr) as [[| | |a]|] eqn:Harr; try done.
  destruct (Numpy.in_shape _ _); [|done].
  destruct (Numpy.store _ _ _ _); try done.
  simpl. rewrite lookup_insert_ne; [done|].
  intros <-. destruct Hwhy as [Hwhy|Hwhy]; [|done].
  rewrite Hl in Harr. injection Harr as ->. by destruct (Hwhy a).
Qed.

Lemma array_setitem_wld (arr : loc) (idx : list Z) (v : byte) (σ : pystate) :
  wld (array_setitem arr idx v σ).2 = wld σ.
Proof.
  unfold array_setitem. destruct (heap σ !! arr) as [[| | |a]|]; try done.
  destruct (Numpy.in_shape _ _); [|done].
  by destruct (Numpy.store _ _ _ _).
Qed.

(** ** [VideoMetadata] objects *)

Lemma setattr_others (a a' : PyVideoMetadata.attr) (v : pyvalue)
    (m m' : VideoMetadata.t) :
  PyVideoMetadata.setattr a v m = Some m' → a' ≠ a →
  PyVideoMetadata.getattr a' m' = PyVideoMetadata.getattr a' m.
Proof.
  destruct m. intros Hset Hne.
  destruct a; simpl in Hset;
    match type of Hset with
    | context [?cast v] => destruct (cast v); simpl in Hset; [|discriminate]
    end;
    injection Hset as <-; destruct a'; done.
Qed.

Lemma exec_open_done (self : loc) (path : string) (σ σ' : pystate) (v : pyvalue) :
  exec (Reader_open self path) σ = (Done v, σ') →
  ∃ r md s l, heap σ !! self = Some (ReaderObj r)
    ∧ open path (wld σ, r) = (Done md, s)
    ∧ v = PyRef l ∧ l ≠ self ∧ heap σ !! l = None
    ∧ σ' = mk_pystate (<[l := VideoMetadataObj md]> (<[self := ReaderObj s.2]> (heap σ))) s.1.
Proof.
  cbn [exec]. unfold with_reader.
  destruct (heap σ !! self) as [[| |r|]|] eqn:Hself; try discriminate.
  destruct (open path (wld σ, r)) as [[md| |] s] eqn:Ho; try discriminate.
  destruct (new_object_spec (VideoMetadataObj md) (put_reader self s σ))
    as (l & -> & Hfresh).
  intros [= <- <-]. exists r, md, s, l. unfold put_reader in *. simpl in *.
  assert (l ≠ self) by (intros ->; by rewrite lookup_insert_eq in Hfresh).
  rewrite lookup_insert_ne in Hfresh by done. done.
Qed.

(** The statement of C7 as it is worded fails: the metadata that [open]
    returned is changed by an assignment to its [width]. *)
Lemma metadata_immutable_fails : ¬ metadata_immutable.
Proof.
  intros Hclaim.
  pose (σ' := (exec (Reader_open 1%positive "clip.mp4") Samples.py0).2).
  specialize (Hclaim Samples.py0 1%positive "clip.mp4"%string 2%positive σ'
                (Samples.headers 3)
                (VideoMetadata_set 2%positive PyVideoMetadata.width (PyInt 640))).
  assert (Hset : heap (exec (VideoMetadata_set 2%positive PyVideoMetadata.width
                               (PyInt 640)) σ').2 !! 2%positive
                 = Some (VideoMetadataObj
                           (VideoMetadata.mk 640 1 30%Q 3 (inject_Z 3 / 30)%Q "h264"
                              None None (Some 8) true None)))
    by (vm_compute; reflexivity).
  assert (Hopen : exec (Reader_open 1%positive "clip.mp4") Samples.py0
                  = (Done (PyRef 2%positive), σ')).
  { assert (H1 : (exec (Reader_open 1%positive "clip.mp4") Samples.py0).1
                 = Done (PyRef 2%positive)) by (vm_compute; reflexivity).
    rewrite <- H1. apply surjective_pairing. }
  assert (Hmd : heap σ' !! 2%positive = Some (VideoMetadataObj (Samples.headers 3)))
    by (vm_compute; reflexivity).
  pose proof (Hclaim Hopen Hmd) as Hsame.
  rewrite Hsame in Hset. discriminate Hset.
Qed.

Lemma run_stmt_metadata (st : stmt) (σ : pystate) (l : loc) (m : VideoMetadata.t) :
  heap σ !! l = Some (VideoMetadataObj m) →
  ∃ m', heap (run_stmt st σ).2 !! l = Some (VideoMetadataObj m')
        ∧ (∀ a, ¬ assigns_metadata l a st →
             PyVideoMetadata.getattr a m' = PyVideoMetadata.getattr a m)
        ∧ ((∀ a, ¬ assigns_metadata l a st) → m' = m).
Proof.
  intros Hl. destruct st as [c|arr idx v|e]; cbn [run_stmt].
  - destruct (exec_touches c σ l _ Hl) as [Hsame|(o' & Ht & Ho')].
    + exists m. done.
    + inversion Ht; subst. eexists. split; [done|]. split.
      * intros a' Hno. eapply setattr_others; [done|].
        intros ->. apply Hno. by eexists.
      * intros Hno. destruct (Hno a). by eexists.
  - exists m. split; [|done]. apply array_setitem_lookup; [done|]. by left.
  - exists m. done.
Qed.

(** C7, amended. Each successful [open] creates exactly one new
    [VideoMetadata] object, equal to the reader's own metadata.  After [open]
    has returned it, whatever statements follow (calls of the module on any
    object, among them further [open], [read_frame], [seek] and [close]
    calls, writes into arrays, raises) and however they end, the object is
    still a [VideoMetadata] object, and each of its members reads as [open]
    left it unless one of the statements is an assignment to that member of
    that object (all eleven members are bound read-write); without any
    assignment to it the object is as [open] left it. *)
Theorem metadata_changed_only_by_assignment (self : loc) (path : string)
    (σ σ' : pystate) (v : pyvalue) :
  exec (Reader_open self path) σ = (Done v, σ') →
  ∃ l md r',
    v = PyRef l ∧ heap σ !! l = None
    ∧ heap σ' !! l = Some (VideoMetadataObj md)
    ∧ heap σ' !! self = Some (ReaderObj r') ∧ metadata_ r' = Some md
    ∧ (∀ l', l' ≠ l → l' ≠ self → heap σ' !! l' = heap σ !! l')
    ∧ ∀ body, ∃ md',
        heap (run_block body σ').2 !! l = Some (VideoMetadataObj md')
        ∧ (∀ a, Forall (λ st, ¬ assigns_metadata l a st) body →
             PyVideoMetadata.getattr a md' = PyVideoMetadata.getattr a md)
        ∧ (Forall (λ st, ∀ a, ¬ assigns_metadata l a st) body → md' = md).
Proof.
  intros (r & md & s & l & Hself & Hopen & -> & Hne & Hfresh & ->)%exec_open_done.
  exists l, md, s.2. split; [done|]. split; [done|]. cbn [heap].
  split; [apply lookup_insert_eq|].
  split; [rewrite lookup_insert_ne by done; apply lookup_insert_eq|].
  split.
  { destruct (open_cases path (wld σ, r)) as [(e & He & _)|(c & s' & h & _ & He & _ & Hmd)];
      rewrite He in Hopen; [discriminate|]. by injection Hopen as <- <-. }
  split.
  { intros l' Hl Hs. by rewrite !lookup_insert_ne. }
  intros body.
  match goal with |- context [run_block body ?st] => set (σ1 := st) end.
  assert (Hl : heap σ1 !! l = Some (VideoMetadataObj md)) by apply lookup_insert_eq.
  clearbody σ1. clear -Hl. revert md σ1 Hl.
  induction body as [|st body IH]; intros md σ1 Hl; simpl.
  { exists md. done. }
  destruct (run_stmt_metadata st σ1 l md Hl) as (m1 & Hl1 & Hmem1 & Hsame1).
  destruct (run_stmt st σ1) as [[x|e|u] σ2]; cbn [snd] in Hl1.
  - destruct (IH m1 σ2 Hl1) as (m2 & Hl2 & Hmem2 & Hsame2).
    exists m2. split; [done|]. split.
    + intros a Hno. inversion Hno; subst. rewrite Hmem2, Hmem1; done.
    + intros Hno. inversion Hno; subst. rewrite Hsame2, Hsame1; done.
  - exists m1. split; [done|]. split.
    + intros a Hno. inversion Hno; subst. by apply Hmem1.
    + intros Hno. inversion Hno; subst. by apply Hsame1.
  - exists m1. split; [done|]. split.
    + intros a Hno. inversion Hno; subst. by apply Hmem1.
    + intros Hno. inversion Hno; subst. by apply Hsame1.
Qed.

Lemma metadata_changed_only_by_assignment_witness :
  (exec (Reader_open 1%positive "clip.mp4") Samples.py0).1 = Done (PyRef 2%positive)
  ∧ ∃ md',
      heap (run_block [Call (Reader_read_frame 1%positive 0);
                       Call (VideoMetadata_set 2%positive PyVideoMetadata.height
                               (PyInt 5));
                       Call (Reader_open 1%positive "damaged.mp4");
                       Call (Reader_close 1%positive)]
              (exec (Reader_open 1%positive "clip.mp4") Samples.py0).2).2
        !! 2%positive = Some (VideoMetadataObj md')
      ∧ PyVideoMetadata.getattr PyVideoMetadata.width md' = PyInt 2.
Proof.
  assert (H1 : (exec (Reader_open 1%positive "clip.mp4") Samples.py0).1
               = Done (PyRef 2%positive)) by (vm_compute; reflexivity).
  split; [exact H1|].
  destruct (metadata_changed_only_by_assignment 1%positive "clip.mp4" Samples.py0
              (exec (Reader_open 1%positive "clip.mp4") Samples.py0).2
              (PyRef 2%positive))
    as (l & md & r' & Hv & _ & Hl & _ & _ & _ & Hbody).
  - rewrite <- H1. apply surjective_pairing.
  - injection Hv as <-.
    assert (Hmd : heap (exec (Reader_open 1%positive "clip.mp4") Samples.py0).2
                    !! 2%positive = Some (VideoMetadataObj (Samples.headers 3)))
      by (vm_compute; reflexivity).
    rewrite Hmd in Hl. injection Hl as <-.
    destruct (Hbody [Call (Reader_read_frame 1%positive 0);
                     Call (VideoMetadata_set 2%positive PyVideoMetadata.height
                             (PyInt 5));
                     Call (Reader_open 1%positive "damaged.mp4");
                     Call (Reader_close 1%positive)])
      as (md' & Hl' & Hmem & _).
    exists md'. split; [exact Hl'|].
    rewrite Hmem; [reflexivity|].
    repeat constructor; intros [x Hx]; discriminate Hx.
Defined.

(** ** The [with] statement *)






(** ** The [data] property of a frame, in memory *)

Lemma for_loop_agree {S T : Type} (R : S → T → Prop) (n : nat) :
  ∀ (i : Z) (body : Z → S → outcome S) (body' : Z → T → outcome T) (s : S) (t : T),
  (∀ i s t, R s t → agree R (body i s) (body' i t)) → R s t →
  agree R (for_loop n i body s) (for_loop n i body' t).
Proof.
  induction n as [|n IH]; intros i body body' s t Hbody HR; simpl; [done|].
  pose proof (Hbody i s t HR) as Hstep.
  destruct (body i s), (body' i t); cbn in *; try done. by apply IH.
Qed.

(** The copy in memory does what the copy on values does, and writes into
    the buffer of the result only. *)
Lemma copy_loop_agree (f : Mem.frame) (result : Mem.ndarray) (m : memory)
    (bytes buf : list byte) :
  m !! Mem.data f = Some bytes → Mem.data_ptr result ≠ Mem.data f →
  agree (λ st st', st'.1 = st.1 ∧ st'.2 = <[Mem.data_ptr result := st.2]> m)
    (copy_loop (Frame.mk (Mem.index f) (Mem.pts f) (Mem.dts f) bytes
                  (Mem.width f) (Mem.height f))
       (Mem.strides result) buf)
    (Mem.copy_loop f result (<[Mem.data_ptr result := buf]> m)).
Proof.
  intros Hbytes Hne. unfold copy_loop, Mem.copy_loop. cbn [Frame.height Frame.width].
  apply for_loop_agree; [|done]. intros i s t HR.
  apply for_loop_agree; [|done]. intros j s1 t1 HR1.
  apply for_loop_agree; [|done]. intros k [idx b] [idx' m1] [Hidx Hm]. cbn in Hidx, Hm.
  subst idx' m1. unfold copy_body, Mem.copy_body, Mem.load, Mem.store.
  cbn [fst snd Frame.data].
  rewrite (lookup_insert_ne _ (Mem.data_ptr result) (Mem.data f)) by done.
  rewrite Hbytes.
  destruct (Numpy.load bytes idx) as [v| |]; cbn; [|done..].
  rewrite lookup_insert_eq.
  destruct (Numpy.store _ _ _ _) as [b'| |]; cbn; [|done..].
  split; [done|]. apply insert_insert_eq.
Qed.

(** [frame_to_numpy] in memory returns what [frame_to_numpy] on the value of
    the frame returns, in a buffer at an address that was not in use, and
    leaves every other buffer as it was. *)
Lemma frame_to_numpy_agree (f : Mem.frame) (m : memory) (fv : Frame.t) :
  Mem.value f m = Some fv →
  agree (λ av am,
           am.1 = Mem.mk_ndarray (Numpy.shape av) (Numpy.strides av)
                    (fresh (dom m)) (Numpy.owndata av)
           ∧ am.2 = <[fresh (dom m) := Numpy.buffer av]> m)
    (frame_to_numpy fv) (Mem.frame_to_numpy f m).
Proof.
  unfold Mem.value. destruct (m !! Mem.data f) as [bytes|] eqn:Hbytes; [|done].
  intros [= <-]. unfold frame_to_numpy, Mem.frame_to_numpy, Mem.array_new.
  cbn [Frame.height Frame.width].
  destruct (Numpy.array_new _ _) as [r| |]; cbn -[copy_loop Mem.copy_loop]; [|done..].
  assert (Hne : fresh (dom m) ≠ Mem.data f).
  { intros Heq. pose proof (is_fresh (dom m)) as Hfresh. rewrite Heq in Hfresh.
    apply Hfresh, elem_of_dom. by exists bytes. }
  pose proof (copy_loop_agree f
                (Mem.mk_ndarray (Numpy.shape r) (Numpy.strides r) (fresh (dom m))
                   (Numpy.owndata r))
                m bytes (Numpy.buffer r) Hbytes Hne) as Hloop.
  cbn [Mem.data_ptr Mem.strides] in Hloop.
  destruct (copy_loop _ _ _) as [st| |], (Mem.copy_loop _ _ _) as [st'| |];
    cbn in *; try done.
  by destruct Hloop as [_ ->].
Qed.

(** A write through an array lands in the buffer that the array points to:
    an array that points to the buffer of another object changes what that
    object holds. *)
Lemma setitem_writes_through (a : Mem.ndarray) (idx : list Z) (v : byte)
    (m m' : memory) (buf : list byte) :
  m !! Mem.data_ptr a = Some buf → Mem.setitem a idx v m = Done m' →
  m' = <[Mem.data_ptr a :=
           <[Z.to_nat (Numpy.byte_offset (Mem.strides a) idx) := v]> buf]> m.
Proof.
  intros Hbuf. unfold Mem.setitem, Mem.store. rewrite Hbuf.
  destruct (Numpy.in_shape _ _); [|done]. unfold Numpy.store.
  destruct (_ && _); cbn; [|done]. by intros [= <-].
Qed.

Lemma setitem_shared_buffer :
  Mem.value Samples.frame_in_ram Samples.ram
  = Some (Frame.mk 0 0 (Some 0) (Samples.rgb x10) 2 1)
  ∧ ∃ m', Mem.setitem (Mem.mk_ndarray [1; 2; 3] [6; 3; 1] 1 false) [0; 0; 0] xff
            Samples.ram = Done m'
          ∧ Mem.value Samples.frame_in_ram m'
            = Some (Frame.mk 0 0 (Some 0) (<[0%nat := xff]> (Samples.rgb x10)) 2 1).
Proof.
  split; [vm_compute; reflexivity|].
  eexists. split; [vm_compute; reflexivity|]. vm_compute. reflexivity.
Qed.

Lemma setitem_others (a : Mem.ndarray) (idx : list Z) (v : byte) (m m' : memory)
    (p : addr) :
  Mem.setitem a idx v m = Done m' → p ≠ Mem.data_ptr a → m' !! p = m !! p.
Proof.
  unfold Mem.setitem, Mem.store. destruct (Numpy.in_shape _ _); [|done].
  destruct (m !! Mem.data_ptr a) as [buf|]; [|done].
  destruct (Numpy.store _ _ _ _) as [buf'| |]; cbn; [|done..].
  intros [= <-] Hne. by rewrite lookup_insert_ne.
Qed.

(** C9. Every read of the [data] of a frame that returns gives an array in a
    buffer of its own: the buffer lies at an address that no buffer had
    before the read (so it is neither the buffer of the frame's data, nor
    the scratch buffer of a reader, nor the buffer of an array returned
    earlier), the array owns it, it holds what the copy loop wrote (for a
    frame within the range of [int] with [width * height * 3] bytes, the
    bytes of the frame), and the read left every other buffer as it was.
    Whatever the caller then writes through the array, every buffer that
    existed before the read holds what it held, and the frame has the value
    it had.  A second read gives an array in another buffer, and the first
    array keeps its bytes. *)
Theorem frame_data_no_alias (f : Mem.frame) (m m' : memory) (fv : Frame.t)
    (a : Mem.ndarray) :
  Mem.value f m = Some fv →
  Mem.frame_to_numpy f m = Done (a, m') →
  (∀ p, is_Some (m !! p) → Mem.data_ptr a ≠ p)
  ∧ Mem.data_ptr a ≠ Mem.data f
  ∧ Mem.owndata a = true
  ∧ (∃ av, frame_to_numpy fv = Done av
       ∧ Mem.shape a = Numpy.shape av ∧ Mem.strides a = Numpy.strides av
       ∧ m' !! Mem.data_ptr a = Some (Numpy.buffer av))
  ∧ (0 <= Frame.width fv → 0 <= Frame.height fv →
     CInt.int_range (Frame.height fv) → Frame.width fv * 3 <= CInt.INT_MAX →
     Z.of_nat (length (Frame.data fv)) = Frame.width fv * Frame.height fv * 3 →
     m' !! Mem.data_ptr a = Some (Frame.data fv))
  ∧ (∀ p, p ≠ Mem.data_ptr a → m' !! p = m !! p)
  ∧ (∀ m1 idx v m2,
       (∀ p, p ≠ Mem.data_ptr a → m1 !! p = m !! p) →
       Mem.setitem a idx v m1 = Done m2 →
       (∀ p, p ≠ Mem.data_ptr a → m2 !! p = m !! p)
       ∧ Mem.value f m2 = Some fv)
  ∧ (∀ a2 m2, Mem.frame_to_numpy f m' = Done (a2, m2) →
       Mem.data_ptr a2 ≠ Mem.data_ptr a
       ∧ m2 !! Mem.data_ptr a = m' !! Mem.data_ptr a).
Proof.
  intros Hval Hrun.
  pose proof (frame_to_numpy_agree f m fv Hval) as Hag. rewrite Hrun in Hag.
  destruct (frame_to_numpy fv) as [av| |] eqn:Hav; cbn in Hag; [|done..].
  destruct Hag as [-> ->]. cbn [Mem.data_ptr Mem.owndata Mem.shape Mem.strides].
  set (p := fresh (dom m)).
  assert (Hfresh : m !! p = None) by apply not_elem_of_dom, is_fresh.
  assert (Hdata : ∃ bytes, m !! Mem.data f = Some bytes).
  { unfold Mem.value in Hval. destruct (m !! Mem.data f) as [bytes|]; [|done].
    by exists bytes. }
  destruct Hdata as [bytes Hbytes].
  assert (Hne : p ≠ Mem.data f) by (intros Heq; rewrite Heq in Hfresh; congruence).
  assert (Hkeep : ∀ m1, (∀ q, q ≠ p → m1 !! q = m !! q) → Mem.value f m1 = Some fv).
  { intros m1 Hsame. unfold Mem.value in *. by rewrite Hsame. }
  split; [intros q [x Hx] <-; congruence|].
  split; [done|].
  split; [by destruct (frame_to_numpy_shape_strides fv av Hav) as (_ & _ & Hown)|].
  split; [exists av; by rewrite lookup_insert_eq|].
  split.
  { intros Hw0 Hh0 Hh Hw3 Hlen.
    destruct (frame_to_numpy_copies fv Hw0 Hh0 Hh Hw3 Hlen)
      as (av' & Hav' & _ & _ & _ & Hbuf & _).
    rewrite Hav in Hav'. injection Hav' as <-. by rewrite lookup_insert_eq, Hbuf. }
  split; [intros q Hq; by rewrite lookup_insert_ne|].
  split.
  { intros m1 idx v m2 Hsame Hset.
    assert (Hsame2 : ∀ q, q ≠ p → m2 !! q = m !! q).
    { intros q Hq. rewrite <- (Hsame q Hq). by eapply setitem_others. }
    split; [exact Hsame2|]. by apply Hkeep. }
  intros a2 m2 Hrun2.
  assert (Hval' : Mem.value f (<[p := Numpy.buffer av]> m) = Some fv).
  { apply Hkeep. intros q Hq. by rewrite lookup_insert_ne. }
  pose proof (frame_to_numpy_agree f _ fv Hval') as Hag. rewrite Hrun2, Hav in Hag.
  cbn [agree fst snd] in Hag. destruct Hag as [-> ->]. cbn [Mem.data_ptr].
  assert (Hp2 : fresh (dom (<[p := Numpy.buffer av]> m)) ≠ p).
  { intros Heq. pose proof (is_fresh (dom (<[p := Numpy.buffer av]> m))) as Hf2.
    rewrite Heq in Hf2. apply Hf2, elem_of_dom. rewrite lookup_insert_eq. eauto. }
  split; [done|]. by rewrite lookup_insert_ne.
Qed.

Lemma frame_data_no_alias_witness :
  Mem.value Samples.frame_in_ram Samples.ram
  = Some (Frame.mk 0 0 (Some 0) (Samples.rgb x10) 2 1)
  ∧ ∃ a m', Mem.frame_to_numpy Samples.frame_in_ram Samples.ram = Done (a, m')
      ∧ Mem.data_ptr a ≠ 1%positive
      ∧ Mem.data_ptr a ≠ 2%positive
      ∧ m' !! Mem.data_ptr a = Some (Samples.rgb x10)
      ∧ ∀ idx v m2, Mem.setitem a idx v m' = Done m2 →
          Mem.value Samples.frame_in_ram m2
          = Some (Frame.mk 0 0 (Some 0) (Samples.rgb x10) 2 1)
          ∧ m2 !! 2%positive = Some (Samples.rgb x30).
Proof.
  assert (Hval : Mem.value Samples.frame_in_ram Samples.ram
                 = Some (Frame.mk 0 0 (Some 0) (Samples.rgb x10) 2 1))
    by (vm_compute; reflexivity).
  split; [exact Hval|].
  destruct (Mem.frame_to_numpy Samples.frame_in_ram Samples.ram)
    as [[a m']|e|u] eqn:Hrun;
    [|vm_compute in Hrun; discriminate Hrun|vm_compute in Hrun; discriminate Hrun].
  exists a, m'. split; [reflexivity|].
  destruct (frame_data_no_alias _ _ _ _ _ Hval Hrun)
    as (Hnew & _ & _ & _ & Hbytes & Hread & Hwrite & _).
  assert (H1 : Samples.ram !! 1%positive = Some (Samples.rgb x10))
    by (vm_compute; reflexivity).
  assert (H2 : Samples.ram !! 2%positive = Some (Samples.rgb x30))
    by (vm_compute; reflexivity).
  split; [apply Hnew; by rewrite H1|].
  assert (Hp2 : Mem.data_ptr a ≠ 2%positive) by (apply Hnew; by rewrite H2).
  split; [exact Hp2|].
  split.
  { apply Hbytes; cbn; unfold CInt.int_range, CInt.INT_MIN, CInt.INT_MAX; lia. }
  intros idx v m2 Hset.
  destruct (Hwrite m' idx v m2 Hread Hset) as [Hsame Hkeep].
  split; [exact Hkeep|]. rewrite Hsame; [exact H2|]. intros Heq. by apply Hp2.
Defined.

(** * Further properties of the bindings *)

(** ** [frame_to_numpy] on data of any length *)

Lemma array_new_dims (shp strd : list Z) (a : Numpy.array_t) :
  Numpy.array_new shp strd = Done a →
  Forall (λ d, 0 <= d) shp
  ∧ a = Numpy.mk_array shp strd true (replicate (Z.to_nat (Numpy.product shp)) x00).
Proof.
  unfold Numpy.array_new. destruct (forallb _ _) eqn:Hdims; [|done].
  intros [= <-]. split; [|done].
  apply Forall_forall. intros d Hd. apply list_elem_of_In in Hd.
  pose proof (proj1 (List.forallb_forall _ _) Hdims d Hd) as Hle. lia.
Qed.

Lemma copy_loop_length (f : Frame.t) (strd : list Z) (buf : list byte) :
  0 <= Frame.width f → 0 <= Frame.height f →
  post (λ st, length st.2 = length buf) (λ _, True) (copy_loop f strd buf).
Proof.
  intros Hw0 Hh0.
  pose proof (copy_loop_post f strd (λ _ b, length b = length buf) (λ _, True)
                Hw0 Hh0) as HL.
  assert (Hgoal : post (λ st : Z * list byte,
             st.1 = (Frame.height f * Frame.width f * 3) mod CInt.SIZE_MOD
             ∧ length st.2 = length buf)
            (λ _, True) (copy_loop f strd buf)).
  { apply HL; [|done]. intros i j k b _ _ _ Hb.
    unfold copy_body, Numpy.load. cbn [fst snd].
    destruct (Frame.data f !! _); [|done].
    destruct (0 <=? _); [|done]. cbn.
    unfold Numpy.store. destruct (_ && _); cbn; [|done].
    split; [apply size_succ_mod|]. by rewrite length_insert. }
  destruct (copy_loop f strd buf) as [st| |]; simpl in *; [|done..].
  by destruct Hgoal.
Qed.

(** X4. Whenever [frame_to_numpy] returns an array, the dimensions of the
    frame are non-negative, the shape is [(height, width, 3)], the strides
    are those computed in [int], the array owns its buffer, and the buffer
    holds exactly [height * width * 3] bytes: the copy never resizes it. *)
Theorem frame_to_numpy_size (f : Frame.t) (a : Numpy.array_t) :
  frame_to_numpy f = Done a →
  0 <= Frame.height f ∧ 0 <= Frame.width f
  ∧ Numpy.shape a = [Frame.height f; Frame.width f; 3]
  ∧ Numpy.strides a = [CInt.int_mul (Frame.width f) 3; 3; 1]
  ∧ Numpy.owndata a = true
  ∧ Z.of_nat (length (Numpy.buffer a)) = Frame.height f * Frame.width f * 3.
Proof.
  unfold frame_to_numpy.
  destruct (Numpy.array_new _ _) as [r| |] eqn:Hnew; [|done..].
  destruct (array_new_dims _ _ _ Hnew) as [Hdims ->].
  inversion Hdims as [|? ? Hh0 Hrest]; subst.
  inversion Hrest as [|? ? Hw0 _]; subst. cbn -[Z.mul].
  pose proof (copy_loop_length f [CInt.int_mul (Frame.width f) 3; 3; 1]
                (replicate (Z.to_nat (Numpy.product [Frame.height f; Frame.width f; 3]))
                   x00) Hw0 Hh0) as Hlen.
  destruct (copy_loop f _ _) as [st| |]; [|done..]. cbn -[Z.mul] in *.
  intros [= <-]. cbn -[Z.mul]. repeat split; try done.
  rewrite Hlen, length_replicate. unfold Numpy.product. simpl. nia.
Qed.

Lemma frame_to_numpy_size_witness :
  frame_to_numpy Samples.frame_2x2
  = Done (Numpy.mk_array [2; 2; 3] [6; 3; 1] true (Frame.data Samples.frame_2x2))
  ∧ Z.of_nat (length (Frame.data Samples.frame_2x2)) = 2 * 2 * 3.
Proof.
  assert (Ha : frame_to_numpy Samples.frame_2x2
               = Done (Numpy.mk_array [2; 2; 3] [6; 3; 1] true
                         (Frame.data Samples.frame_2x2))) by (vm_compute; reflexivity).
  split; [exact Ha|].
  exact (proj2 (proj2 (proj2 (proj2 (proj2
           (frame_to_numpy_size Samples.frame_2x2 _ Ha)))))).
Defined.

Lemma copy_loop_zero_area (f : Frame.t) (strd : list Z) :
  0 <= Frame.width f → 0 <= Frame.height f →
  Frame.width f * Frame.height f = 0 →
  ∃ st, copy_loop f strd [] = Done st ∧ st.2 = [].
Proof.
  intros Hw0 Hh0 Hzero.
  pose proof (copy_loop_post f strd (λ _ b, b = []) (λ _, False) Hw0 Hh0) as HL.
  assert (Hgoal : post (λ st : Z * list byte,
             st.1 = (Frame.height f * Frame.width f * 3) mod CInt.SIZE_MOD
             ∧ st.2 = [])
            (λ _, False) (copy_loop f strd [])).
  { apply HL; [|done]. intros i j k b Hi Hj _ _. exfalso. nia. }
  destruct (copy_loop f strd []) as [st| |]; simpl in Hgoal; [|done..].
  exists st. by destruct Hgoal.
Qed.

(** X3. A frame with non-negative dimensions of which one is zero is
    exposed as an empty array, whatever its data holds and however large the
    other dimension is: no byte is read or written. *)
Theorem frame_to_numpy_zero_area (f : Frame.t) :
  0 <= Frame.width f → 0 <= Frame.height f →
  Frame.width f * Frame.height f = 0 →
  frame_to_numpy f
  = Done (Numpy.mk_array [Frame.height f; Frame.width f; 3]
            [CInt.int_mul (Frame.width f) 3; 3; 1] true []).
Proof.
  intros Hw0 Hh0 Hzero. unfold frame_to_numpy, Numpy.array_new. simpl forallb.
  destruct (Z.leb_spec 0 (Frame.height f)); [|lia].
  destruct (Z.leb_spec 0 (Frame.width f)); [|lia].
  cbn -[copy_loop Z.mul].
  replace (Z.to_nat (Frame.height f * (Frame.width f * (3 * 1)))) with 0%nat by nia.
  cbn [replicate].
  destruct (copy_loop_zero_area f [CInt.int_mul (Frame.width f) 3; 3; 1]
              Hw0 Hh0 Hzero) as (st & -> & Hst).
  cbn. by rewrite Hst.
Qed.

Lemma frame_to_numpy_zero_area_witness :
  0 <= Frame.width Samples.frame_wide
  ∧ 0 <= Frame.height Samples.frame_wide
  ∧ Frame.width Samples.frame_wide * Frame.height Samples.frame_wide = 0
  ∧ frame_to_numpy Samples.frame_wide
    = Done (Numpy.mk_array [0; 715827883; 3] [-2147483647; 3; 1] true []).
Proof.
  assert (H1 : 0 <= Frame.width Samples.frame_wide) by (simpl; lia).
  assert (H2 : 0 <= Frame.height Samples.frame_wide) by (simpl; lia).
  assert (H3 : Frame.width Samples.frame_wide * Frame.height Samples.frame_wide = 0)
    by reflexivity.
  repeat (split; [assumption|]).
  exact (frame_to_numpy_zero_area Samples.frame_wide H1 H2 H3).
Defined.

Lemma copy_loop_prefix (f : Frame.t) :
  0 <= Frame.width f → 0 <= Frame.height f → CInt.int_range (Frame.height f) →
  Frame.width f * 3 <= CInt.INT_MAX →
  Frame.width f * Frame.height f * 3 <= Z.of_nat (length (Frame.data f)) →
  ∃ st, copy_loop f [Frame.width f * 3; 3; 1]
          (replicate (Z.to_nat (Frame.width f * Frame.height f * 3)) x00) = Done st
        ∧ st.2 = take (Z.to_nat (Frame.width f * Frame.height f * 3)) (Frame.data f).
Proof.
  intros Hw0 Hh0 Hh Hw3 Hlen.
  pose proof (int_area_fits_size_t _ _ Hw0 Hw3 Hh0 Hh) as Hfit.
  set (total := Frame.width f * Frame.height f * 3) in *.
  pose proof (copy_loop_post f [Frame.width f * 3; 3; 1]
                (copied_prefix (Frame.data f) total) (λ _, False) Hw0 Hh0) as HL.
  assert (Hgoal : post (λ st : Z * list byte,
             st.1 = (Frame.height f * Frame.width f * 3) mod CInt.SIZE_MOD
             ∧ copied_prefix (Frame.data f) total
                 (Frame.height f * Frame.width f * 3) st.2)
            (λ _, False)
            (copy_loop f [Frame.width f * 3; 3; 1] (replicate (Z.to_nat total) x00))).
  { apply HL.
    - intros i j k b Hi Hj Hk Hpre.
      pose proof (linear_index_bound _ _ i j k Hi Hj Hk) as Hb. fold total in Hb.
      set (idx := (i * Frame.width f + j) * 3 + k) in *.
      rewrite (Z.mod_small idx) by lia.
      unfold copy_body. cbn [fst snd].
      destruct (load_in_bounds (Frame.data f) idx) as (v & -> & Hv); [lia|].
      cbn. unfold Numpy.store.
      assert (Hoff : Numpy.byte_offset [Frame.width f * 3; 3; 1] [i; j; k] = idx).
      { unfold Numpy.byte_offset, idx. simpl. lia. }
      rewrite Hoff.
      assert (Hblen : Z.of_nat (length b) = total).
      { unfold copied_prefix in Hpre.
        rewrite Hpre, length_app, length_take_le, length_replicate by lia. lia. }
      destruct (Z.leb_spec 0 idx); [|lia].
      destruct (Z.ltb_spec idx (Z.of_nat (length b))); [|lia].
      cbn. split; [by rewrite <- size_succ_mod, (Z.mod_small idx) by lia|].
      unfold copied_prefix in *. rewrite Hpre.
      replace (Z.to_nat (total - idx))
        with (Datatypes.S (Z.to_nat (total - (idx + 1)))) by lia.
      rewrite (insert_take_replicate _ _ _ v) by done.
      f_equal. f_equal. lia.
    - unfold copied_prefix. simpl. f_equal. lia. }
  destruct (copy_loop f _ _) as [st| |]; simpl in Hgoal; [|done..].
  exists st. split; [done|]. destruct Hgoal as [_ Hpre].
  unfold copied_prefix in Hpre. rewrite Hpre.
  replace (Z.to_nat (total - _)) with 0%nat by lia.
  simpl. rewrite app_nil_r. f_equal. lia.
Qed.

(** X2. [frame_to_numpy] does not compare the size of the data with the
    dimensions.  For a frame within the range of [int] whose data holds at
    least [width * height * 3] bytes, the array holds exactly the first
    [width * height * 3] bytes of the data, in row-major packed order; the
    bytes after them are ignored. *)
Theorem frame_to_numpy_surplus (f : Frame.t) :
  0 <= Frame.width f → 0 <= Frame.height f → CInt.int_range (Frame.height f) →
  Frame.width f * 3 <= CInt.INT_MAX →
  Frame.width f * Frame.height f * 3 <= Z.of_nat (length (Frame.data f)) →
  ∃ a, frame_to_numpy f = Done a
    ∧ Numpy.shape a = [Frame.height f; Frame.width f; 3]
    ∧ Numpy.strides a = [Frame.width f * 3; 3; 1]
    ∧ Numpy.buffer a
      = take (Z.to_nat (Frame.width f * Frame.height f * 3)) (Frame.data f)
    ∧ ∀ i j k, 0 <= i < Frame.height f → 0 <= j < Frame.width f → 0 <= k < 3 →
        ∃ b, Numpy.item a [i; j; k] = Some b
             ∧ Frame.data f !! Z.to_nat (i * Frame.width f * 3 + j * 3 + k) = Some b.
Proof.
  intros Hw0 Hh0 Hh Hw3 Hlen.
  destruct (copy_loop_prefix f Hw0 Hh0 Hh Hw3 Hlen) as (st & Hst & Hdata).
  unfold frame_to_numpy, Numpy.array_new. simpl forallb.
  destruct (Z.leb_spec 0 (Frame.height f)); [|lia].
  destruct (Z.leb_spec 0 (Frame.width f)); [|lia].
  cbn -[copy_loop Z.mul]. unfold CInt.int_mul.
  rewrite wrap_int_id
    by (unfold CInt.int_range, CInt.INT_MIN, CInt.INT_MAX in *; lia).
  replace (Z.to_nat (Frame.height f * (Frame.width f * (3 * 1))))
    with (Z.to_nat (Frame.width f * Frame.height f * 3)) by (f_equal; lia).
  rewrite Hst. cbn -[Z.mul]. eexists. split; [done|]. cbn -[Z.mul].
  repeat split; try done.
  intros i j k Hi Hj Hk.
  pose proof (linear_index_bound _ _ i j k Hi Hj Hk) as Hb.
  unfold Numpy.item, Numpy.in_shape. cbn -[Z.mul].
  repeat match goal with
  | |- context [?a <=? ?b] => destruct (Z.leb_spec a b); [|lia]
  | |- context [?a <? ?b] => destruct (Z.ltb_spec a b); [|lia]
  end.
  cbn -[Z.mul]. unfold Numpy.byte_offset. cbn -[Z.mul].
  destruct (Z.leb_spec 0 (i * (Frame.width f * 3) + (j * 3 + (k * 1 + 0)))); [|lia].
  replace (i * (Frame.width f * 3) + (j * 3 + (k * 1 + 0)))
    with (i * Frame.width f * 3 + j * 3 + k) by lia.
  rewrite Hdata, lookup_take_lt by lia.
  destruct (lookup_lt_is_Some_2 (Frame.data f)
              (Z.to_nat (i * Frame.width f * 3 + j * 3 + k))) as [b Hbv]; [lia|].
  exists b. done.
Qed.

Lemma frame_to_numpy_surplus_witness :
  0 <= Frame.width Samples.frame_surplus
  ∧ 0 <= Frame.height Samples.frame_surplus
  ∧ CInt.int_range (Frame.height Samples.frame_surplus)
  ∧ Frame.width Samples.frame_surplus * 3 <= CInt.INT_MAX
  ∧ Frame.width Samples.frame_surplus * Frame.height Samples.frame_surplus * 3
    <= Z.of_nat (length (Frame.data Samples.frame_surplus))
  ∧ ∃ a, frame_to_numpy Samples.frame_surplus = Done a
         ∧ Numpy.buffer a = [x01; x02; x03].
Proof.
  assert (H1 : 0 <= Frame.width Samples.frame_surplus) by (simpl; lia).
  assert (H2 : 0 <= Frame.height Samples.frame_surplus) by (simpl; lia).
  assert (H3 : CInt.int_range (Frame.height Samples.frame_surplus))
    by (unfold CInt.int_range, CInt.INT_MIN, CInt.INT_MAX; simpl; lia).
  assert (H4 : Frame.width Samples.frame_surplus * 3 <= CInt.INT_MAX)
    by (unfold CInt.INT_MAX; simpl; lia).
  assert (H5 : Frame.width Samples.frame_surplus * Frame.height Samples.frame_surplus * 3
               <= Z.of_nat (length (Frame.data Samples.frame_surplus)))
    by (simpl; lia).
  repeat (split; [assumption|]).
  destruct (frame_to_numpy_surplus Samples.frame_surplus H1 H2 H3 H4 H5)
    as (a & Ha & _ & _ & Hbuf & _).
  exists a. split; [exact Ha|]. exact Hbuf.
Defined.

(** X1. [frame_to_numpy] does not check that the data is long enough.  For
    a frame within the range of [int] whose data holds fewer than
    [width * height * 3] bytes, the copy loop run on the array that numpy
    allocated for the shape (any buffer of [width * height * 3] bytes) keeps
    every write inside the array and ends in a read past the end of the
    data, which is undefined behaviour of the unchecked vector access.  So
    [frame_to_numpy] returns no array for such a frame: the allocation
    raises, or the copy reads out of bounds. *)
Theorem frame_to_numpy_short_data (f : Frame.t) :
  0 <= Frame.width f → 0 <= Frame.height f → CInt.int_range (Frame.height f) →
  Frame.width f * 3 <= CInt.INT_MAX →
  Z.of_nat (length (Frame.data f)) < Frame.width f * Frame.height f * 3 →
  (∀ buf, Z.of_nat (length buf) = Frame.width f * Frame.height f * 3 →
     copy_loop f [CInt.int_mul (Frame.width f) 3; 3; 1] buf
     = Undefined ReadOutOfBounds)
  ∧ ∀ a, frame_to_numpy f ≠ Done a.
Proof.
  intros Hw0 Hh0 Hh Hw3 Hlen.
  pose proof (int_area_fits_size_t _ _ Hw0 Hw3 Hh0 Hh) as Hfit.
  set (total := Frame.width f * Frame.height f * 3) in *.
  assert (Hloop : ∀ buf, Z.of_nat (length buf) = total →
            copy_loop f [CInt.int_mul (Frame.width f) 3; 3; 1] buf
            = Undefined ReadOutOfBounds).
  { intros buf Hbuf. unfold CInt.int_mul.
    rewrite wrap_int_id
      by (unfold CInt.int_range, CInt.INT_MIN, CInt.INT_MAX in *; lia).
    pose proof (copy_loop_post f [Frame.width f * 3; 3; 1]
                  (λ n b, n <= Z.of_nat (length (Frame.data f))
                          ∧ Z.of_nat (length b) = total)
                  (λ u, u = ReadOutOfBounds) Hw0 Hh0) as HL.
    assert (Hgoal : post (λ st : Z * list byte,
               st.1 = (Frame.height f * Frame.width f * 3) mod CInt.SIZE_MOD
               ∧ Frame.height f * Frame.width f * 3 <= Z.of_nat (length (Frame.data f))
               ∧ Z.of_nat (length st.2) = total)
              (λ u, u = ReadOutOfBounds)
              (copy_loop f [Frame.width f * 3; 3; 1] buf)).
    { apply HL.
      - intros i j k b Hi Hj Hk [Hn Hb].
        pose proof (linear_index_bound _ _ i j k Hi Hj Hk) as Hidx. fold total in Hidx.
        set (idx := (i * Frame.width f + j) * 3 + k) in *.
        rewrite (Z.mod_small idx) by lia.
        unfold copy_body. cbn [fst snd].
        destruct (decide (idx < Z.of_nat (length (Frame.data f)))) as [Hin|Hout].
        + destruct (load_in_bounds (Frame.data f) idx) as (v & -> & Hv); [lia|].
          cbn. unfold Numpy.store.
          assert (Hoff : Numpy.byte_offset [Frame.width f * 3; 3; 1] [i; j; k] = idx).
          { unfold Numpy.byte_offset, idx. simpl. lia. }
          rewrite Hoff.
          destruct (Z.leb_spec 0 idx); [|lia].
          destruct (Z.ltb_spec idx (Z.of_nat (length b))); [|lia].
          cbn. split; [by rewrite <- size_succ_mod, (Z.mod_small idx) by lia|].
          split; [lia|]. by rewrite length_insert.
        + unfold Numpy.load.
          rewrite (proj2 (lookup_ge_None _ _)) by lia. done.
      - split; [lia|done]. }
    destruct (copy_loop f _ _) as [st| |u]; simpl in Hgoal; [lia|done|].
    by subst u. }
  split; [exact Hloop|].
  intros a. unfold frame_to_numpy.
  destruct (Numpy.array_new _ _) as [r| |] eqn:Hnew; [|done..].
  destruct (array_new_dims _ _ _ Hnew) as [_ ->]. cbn -[copy_loop Z.mul].
  rewrite Hloop; [done|].
  rewrite length_replicate. unfold total. lia.
Qed.

Lemma frame_to_numpy_short_data_witness :
  0 <= Frame.width Samples.frame_hollow
  ∧ 0 <= Frame.height Samples.frame_hollow
  ∧ CInt.int_range (Frame.height Samples.frame_hollow)
  ∧ Frame.width Samples.frame_hollow * 3 <= CInt.INT_MAX
  ∧ Z.of_nat (length (Frame.data Samples.frame_hollow))
    < Frame.width Samples.frame_hollow * Frame.height Samples.frame_hollow * 3
  ∧ copy_loop Samples.frame_hollow [3; 3; 1] [x00; x00; x00]
    = Undefined ReadOutOfBounds.
Proof.
  assert (H1 : 0 <= Frame.width Samples.frame_hollow) by (simpl; lia).
  assert (H2 : 0 <= Frame.height Samples.frame_hollow) by (simpl; lia).
  assert (H3 : CInt.int_range (Frame.height Samples.frame_hollow))
    by (unfold CInt.int_range, CInt.INT_MIN, CInt.INT_MAX; simpl; lia).
  assert (H4 : Frame.width Samples.frame_hollow * 3 <= CInt.INT_MAX)
    by (unfold CInt.INT_MAX; simpl; lia).
  assert (H5 : Z.of_nat (length (Frame.data Samples.frame_hollow))
               < Frame.width Samples.frame_hollow * Frame.height Samples.frame_hollow * 3)
    by (simpl; lia).
  repeat (split; [assumption|]).
  exact (proj1 (frame_to_numpy_short_data Samples.frame_hollow H1 H2 H3 H4 H5)
           [x00; x00; x00] eq_refl).
Defined.

(** ** [Frame] objects *)

Lemma frame_setattr_spec (a : PyFrame.attr) (v : pyvalue) (f f' : Frame.t) :
  PyFrame.setattr a v f = Some f' →
  PyFrame.getattr a f' = int_of v
  ∧ Frame.data f' = Frame.data f
  ∧ ∀ a', a' ≠ a → PyFrame.getattr a' f' = PyFrame.getattr a' f.
Proof.
  destruct f. intros Hset.
  destruct a; simpl in Hset; destruct v; simpl in Hset; try discriminate;
    repeat match type of Hset with
    | context [if ?b then _ else _] => destruct b; simpl in Hset; try discriminate
    end;
    injection Hset as <-; (split; [done|]); (split; [done|]);
    intros a' Ha'; destruct a'; done.
Qed.

Lemma exec_frame_set (self : loc) (a : PyFrame.attr) (v : pyvalue) (σ : pystate) :
  (∃ f f', heap σ !! self = Some (FrameObj f)
     ∧ PyFrame.setattr a v f = Some f'
     ∧ exec (Frame_set self a v) σ
       = (Done PyNone, mk_pystate (<[self := FrameObj f']> (heap σ)) (wld σ)))
  ∨ exec (Frame_set self a v) σ = (Raised TypeError, σ).
Proof.
  cbn [exec]. unfold with_frame.
  destruct (heap σ !! self) as [[|f| |]|]; try (by right).
  destruct (PyFrame.setattr a v f) as [f'|] eqn:Hs; [|by right].
  left. by exists f, f'.
Qed.

(** X6. An assignment to a member of a frame either succeeds, and then the
    member reads back the value as the integer cast stored it (the assigned
    integer or [None], and 0 or 1 for a [bool]) while the other members read
    as before, or it raises TypeError and changes nothing.  It succeeds for
    every [bool], and for an integer exactly when it fits the type of the
    member. *)
Theorem frame_set_get (self : loc) (a : PyFrame.attr) (v : pyvalue) (σ : pystate) :
  (((exec (Frame_set self a v) σ).1 = Done PyNone
    ∧ exec (Frame_get self a) (exec (Frame_set self a v) σ).2
      = (Done (int_of v), (exec (Frame_set self a v) σ).2)
    ∧ ∀ a', a' ≠ a →
        (exec (Frame_get self a') (exec (Frame_set self a v) σ).2).1
        = (exec (Frame_get self a') σ).1)
   ∨ exec (Frame_set self a v) σ = (Raised TypeError, σ))
  ∧ (∀ f, heap σ !! self = Some (FrameObj f) →
       (∀ b, v = PyBool b → (exec (Frame_set self a v) σ).1 = Done PyNone)
       ∧ (∀ z, v = PyInt z →
            ((exec (Frame_set self a v) σ).1 = Done PyNone
             ↔ fits_member a z = true))).
Proof.
  split.
  - destruct (exec_frame_set self a v σ) as [(f & f' & Hl & Hset & ->)|Hfail];
      [left|by right].
    destruct (frame_setattr_spec a v f f' Hset) as (Hget & _ & Hothers).
    cbn [fst snd exec]. unfold with_frame. cbn [heap].
    rewrite lookup_insert_eq, Hl. split; [done|]. split; [by rewrite Hget|].
    intros a' Ha'. cbn. by rewrite Hothers.
  - intros f Hl. cbn [exec]. unfold with_frame. rewrite Hl. destruct f. split.
    + intros b ->. by destruct a.
    + intros z ->. destruct a; cbn;
        match goal with |- context [if ?c then _ else _] => destruct c end;
        cbn; split; done.
Qed.

Lemma run_stmt_frame (st : stmt) (σ : pystate) (l : loc) (f : Frame.t) :
  heap σ !! l = Some (FrameObj f) →
  ∃ f', heap (run_stmt st σ).2 !! l = Some (FrameObj f')
        ∧ Frame.data f' = Frame.data f
        ∧ (¬ assigns_frame l st → f' = f).
Proof.
  intros Hl. destruct st as [c|arr idx v|e]; cbn [run_stmt].
  - destruct (exec_touches c σ l _ Hl) as [Hsame|(o' & Ht & Ho')].
    + exists f. done.
    + inversion Ht; subst. eexists. split; [done|].
      match goal with H : PyFrame.setattr _ _ _ = Some _ |- _ =>
        destruct (frame_setattr_spec _ _ _ _ H) as (_ & Hdata & _) end.
      split; [done|]. intros Hno. destruct Hno. by eexists _, _.
  - exists f. split; [|done]. apply array_setitem_lookup; [done|]. by left.
  - exists f. done.
Qed.

Lemma run_block_frame_data (body : list stmt) (σ : pystate) (l : loc) (f : Frame.t) :
  heap σ !! l = Some (FrameObj f) →
  ∃ f', heap (run_block body σ).2 !! l = Some (FrameObj f')
        ∧ Frame.data f' = Frame.data f.
Proof.
  revert σ f. induction body as [|st body IH]; intros σ f Hl; simpl.
  { exists f. done. }
  destruct (run_stmt_frame st σ l f Hl) as (f1 & Hl1 & Hd1 & _).
  destruct (run_stmt st σ) as [[v|e|u] σ1]; cbn [snd] in Hl1.
  - destruct (IH σ1 f1 Hl1) as (f2 & Hl2 & Hd2). exists f2. split; [done|congruence].
  - by exists f1.
  - by exists f1.
Qed.

(** X5. No statement changes the data of a frame object: whatever calls of
    the module and writes into arrays a block performs, and however it ends,
    the frame object is still there with the bytes it had, and when the
    block holds no assignment to a member of that frame, the whole frame is
    as before.  Frames returned earlier are so untouched by later decoding. *)
Theorem frame_data_stable (body : list stmt) (σ : pystate) (l : loc) (f : Frame.t) :
  heap σ !! l = Some (FrameObj f) →
  ∃ f', heap (run_block body σ).2 !! l = Some (FrameObj f')
        ∧ Frame.data f' = Frame.data f
        ∧ (Forall (λ st, ¬ assigns_frame l st) body → f' = f).
Proof.
  revert σ f. induction body as [|st body IH]; intros σ f Hl; simpl.
  { exists f. done. }
  destruct (run_stmt_frame st σ l f Hl) as (f1 & Hl1 & Hd1 & Hsame1).
  destruct (run_stmt st σ) as [[v|e|u] σ1]; cbn [snd] in Hl1.
  - destruct (IH σ1 f1 Hl1) as (f2 & Hl2 & Hd2 & Hsame2).
    exists f2. split; [done|]. split; [congruence|].
    intros Hno. inversion Hno; subst. rewrite Hsame2, Hsame1; done.
  - exists f1. split; [done|]. split; [done|].
    intros Hno. inversion Hno; subst. by apply Hsame1.
  - exists f1. split; [done|]. split; [done|].
    intros Hno. inversion Hno; subst. by apply Hsame1.
Qed.

Lemma frame_data_stable_witness :
  heap (Samples.after [Reader_open 1%positive "clip.mp4";
                       Reader_read_frame 1%positive 0] Samples.py0) !! 3%positive
  = Some (FrameObj (Frame.mk 0 0 (Some 0) (Samples.rgb x10) 2 1))
  ∧ ∃ f', heap (run_block [Call (Reader_read_frame 1%positive 2);
                           Call (Frame_set 3%positive PyFrame.width (PyInt 1));
                           Call (Reader_close 1%positive)]
                  (Samples.after [Reader_open 1%positive "clip.mp4";
                                  Reader_read_frame 1%positive 0] Samples.py0)).2
            !! 3%positive = Some (FrameObj f')
          ∧ Frame.data f' = Samples.rgb x10.
Proof.
  set (σ := Samples.after _ _).
  assert (Hl : heap σ !! 3%positive
               = Some (FrameObj (Frame.mk 0 0 (Some 0) (Samples.rgb x10) 2 1)))
    by (vm_compute; reflexivity).
  split; [exact Hl|].
  destruct (frame_data_stable
              [Call (Reader_read_frame 1%positive 2);
               Call (Frame_set 3%positive PyFrame.width (PyInt 1));
               Call (Reader_close 1%positive)] σ 3%positive _ Hl)
    as (f' & Hf' & Hdata & _).
  exists f'. split; [exact Hf'|exact Hdata].
Defined.

(** ** [VideoMetadata] objects, assignment and reading *)

(** An integer of at most 53 bits is a [double]. *)
Lemma round_to_double_exact (z : Z) :
  Z.abs z < 2 ^ 53 → round_to_double z = Some (inject_Z z).
Proof.
  intros Hz. unfold round_to_double.
  assert (Hbits : (if Z.abs z =? 0 then 0 else Z.log2 (Z.abs z) + 1) <= 53).
  { destruct (Z.eqb_spec (Z.abs z) 0); [lia|].
    assert (Z.log2 (Z.abs z) < 53) by (apply Z.log2_lt_pow2; lia). lia. }
  cbv zeta. rewrite Z.max_l by lia.
  rewrite Z.shiftr_0_r, !Z.shiftl_0_r. change (0 <? 0) with false. cbn [andb].
  assert (Hlt : Z.abs z < 2 ^ 1024).
  { eapply Z.lt_trans; [exact Hz|]. by apply Z.pow_lt_mono_r. }
  destruct (Z.ltb_spec (Z.abs z) (2 ^ 1024)); [|lia].
  do 2 f_equal. lia.
Qed.

(** Beyond 53 bits the integer is rounded, ties to even, and an integer
    beyond the largest [double] has none. *)
Lemma round_to_double_rounds :
  round_to_double (2 ^ 54 + 1) = Some (inject_Z (2 ^ 54))
  ∧ round_to_double (2 ^ 54 + 2) = Some (inject_Z (2 ^ 54))
  ∧ round_to_double (2 ^ 54 + 6) = Some (inject_Z (2 ^ 54 + 8))
  ∧ round_to_double (- (2 ^ 53 + 3)) = Some (inject_Z (- (2 ^ 53 + 4)))
  ∧ round_to_double (2 ^ 1024 - 2 ^ 970 - 1) = Some (inject_Z (2 ^ 1024 - 2 ^ 971))
  ∧ round_to_double (2 ^ 1024 - 2 ^ 970) = None
  ∧ round_to_double (10 ^ 400) = None.
Proof. repeat split; vm_compute; reflexivity. Qed.

Lemma metadata_setattr_get (a : PyVideoMetadata.attr) (v : pyvalue)
    (m m' : VideoMetadata.t) :
  PyVideoMetadata.setattr a v m = Some m' →
  PyVideoMetadata.getattr a m' = stored_as a v.
Proof.
  destruct m. intros Hset.
  destruct a; simpl in Hset; destruct v; simpl in Hset; try discriminate;
    repeat match type of Hset with
    | context [if ?b then _ else _] => destruct b; simpl in Hset; try discriminate
    | context [round_to_double ?z] =>
        destruct (round_to_double z) eqn:Hround; simpl in Hset; try discriminate
    end;
    injection Hset as <-; simpl; rewrite ?Hround; done.
Qed.

Lemma exec_metadata_set (self : loc) (a : PyVideoMetadata.attr) (v : pyvalue)
    (σ : pystate) :
  (∃ m m', heap σ !! self = Some (VideoMetadataObj m)
     ∧ PyVideoMetadata.setattr a v m = Some m'
     ∧ exec (VideoMetadata_set self a v) σ
       = (Done PyNone, mk_pystate (<[self := VideoMetadataObj m']> (heap σ)) (wld σ)))
  ∨ exec (VideoMetadata_set self a v) σ = (Raised TypeError, σ).
Proof.
  cbn [exec]. unfold with_metadata.
  destruct (heap σ !! self) as [[m| | |]|]; try (by right).
  destruct (PyVideoMetadata.setattr a v m) as [m'|] eqn:Hs; [|by right].
  left. by exists m, m'.
Qed.

(** X7. An assignment to a member of a [VideoMetadata] object either
    succeeds, and then the member reads back the value as the cast to its
    C++ type stored it (a [bool] assigned to an integer member reads back as
    0 or 1; an integer assigned to [fps] or [duration] reads back as the
    nearest [double]; [None] or a number assigned to [has_audio] reads back
    as a [bool]) while the other members read as before, or it raises
    TypeError and changes nothing.  An integer assigned to [fps] or
    [duration] raises TypeError exactly when it lies beyond the largest
    [double]. *)
Theorem metadata_set_get (self : loc) (a : PyVideoMetadata.attr) (v : pyvalue)
    (σ : pystate) :
  (((exec (VideoMetadata_set self a v) σ).1 = Done PyNone
    ∧ exec (VideoMetadata_get self a) (exec (VideoMetadata_set self a v) σ).2
      = (Done (stored_as a v), (exec (VideoMetadata_set self a v) σ).2)
    ∧ ∀ a', a' ≠ a →
        (exec (VideoMetadata_get self a') (exec (VideoMetadata_set self a v) σ).2).1
        = (exec (VideoMetadata_get self a') σ).1)
   ∨ exec (VideoMetadata_set self a v) σ = (Raised TypeError, σ))
  ∧ (∀ m z, heap σ !! self = Some (VideoMetadataObj m) →
       a = PyVideoMetadata.fps ∨ a = PyVideoMetadata.duration → v = PyInt z →
       ((exec (VideoMetadata_set self a v) σ).1 = Raised TypeError
        ↔ round_to_double z = None)).
Proof.
  split.
  - destruct (exec_metadata_set self a v σ) as [(m & m' & Hl & Hset & ->)|Hfail];
      [left|by right].
    cbn [fst snd exec]. unfold with_metadata. cbn [heap].
    rewrite lookup_insert_eq, Hl. split; [done|].
    split; [by rewrite (metadata_setattr_get a v m m' Hset)|].
    intros a' Ha'. cbn. by rewrite (setattr_others a a' v m m' Hset Ha').
  - intros m z Hl Ha ->. cbn [exec]. unfold with_metadata. rewrite Hl.
    destruct m. destruct Ha as [-> | ->]; cbn;
      destruct (round_to_double z); cbn; split; done.
Qed.

(** ** Frames made in Python *)

Lemma frame_to_numpy_negative_dims (f : Frame.t) :
  Frame.width f < 0 ∨ Frame.height f < 0 →
  frame_to_numpy f = Raised ValueError.
Proof.
  intros Hneg. unfold frame_to_numpy, Numpy.array_new. simpl forallb.
  destruct (Z.leb_spec 0 (Frame.height f)); [|done].
  destruct (Z.leb_spec 0 (Frame.width f)); [|done]. lia.
Qed.

Lemma copy_loop_no_data (f : Frame.t) (strd : list Z) (buf : list byte) :
  Frame.data f = [] → 0 < Frame.width f → 0 < Frame.height f →
  copy_loop f strd buf = Undefined ReadOutOfBounds.
Proof.
  intros Hdata Hw Hh. unfold copy_loop.
  destruct (Z.to_nat (Frame.height f)) as [|nh] eqn:Hnh; [lia|].
  destruct (Z.to_nat (Frame.width f)) as [|nw] eqn:Hnw; [lia|].
  assert (Hfirst : copy_body f strd 0 0 0 (0, buf) = Undefined ReadOutOfBounds).
  { unfold copy_body, Numpy.load. cbn [fst]. by rewrite Hdata. }
  cbn [for_loop]. by rewrite Hfirst.
Qed.

(** X8. The [data] of a frame cannot be set from Python, so a frame made by
    [Frame()] holds no byte, whatever statements follow.  Reading its [data]
    then raises ValueError when a dimension is negative and returns a new
    empty array when the dimensions are non-negative and one is zero.  When
    both dimensions are positive it returns no array: on whatever array
    numpy allocated, the first step of the copy reads past the end of the
    empty data, which is undefined behaviour. *)
Theorem python_frame_data (σ0 σ1 : pystate) (l : loc) (body : list stmt) :
  exec Frame_init σ0 = (Done (PyRef l), σ1) →
  ∃ f, heap (run_block body σ1).2 !! l = Some (FrameObj f)
    ∧ Frame.data f = []
    ∧ (Frame.width f < 0 ∨ Frame.height f < 0 →
         exec (Frame_data l) (run_block body σ1).2
         = (Raised ValueError, (run_block body σ1).2))
    ∧ (0 <= Frame.width f → 0 <= Frame.height f →
       Frame.width f * Frame.height f = 0 →
         ∃ arr, (exec (Frame_data l) (run_block body σ1).2).1 = Done (PyRef arr)
           ∧ heap (exec (Frame_data l) (run_block body σ1).2).2 !! arr
             = Some (ArrayObj (Numpy.mk_array [Frame.height f; Frame.width f; 3]
                                 [CInt.int_mul (Frame.width f) 3; 3; 1] true [])))
    ∧ (0 < Frame.width f → 0 < Frame.height f →
         (∀ strd buf, copy_loop f strd buf = Undefined ReadOutOfBounds)
         ∧ ∀ v, (exec (Frame_data l) (run_block body σ1).2).1 ≠ Done v).
Proof.
  intros Hinit.
  assert (Hl : heap σ1 !! l = Some (FrameObj PyFrame.init)).
  { cbn [exec] in Hinit.
    destruct (new_object_spec (FrameObj PyFrame.init) σ0) as (l' & Hn & _).
    rewrite Hn in Hinit. injection Hinit as <- <-. apply lookup_insert_eq. }
  assert (Hstable : ∃ f, heap (run_block body σ1).2 !! l = Some (FrameObj f)
                         ∧ Frame.data f = []).
  { destruct (run_block_frame_data body σ1 l _ Hl) as (f & Hf & Hd). by exists f. }
  destruct Hstable as (f & Hf & Hdata). exists f. split; [done|]. split; [done|].
  cbn [exec]. unfold with_frame. rewrite Hf.
  split; [|split].
  - intros Hneg. by rewrite (frame_to_numpy_negative_dims f Hneg).
  - intros Hw0 Hh0 Hzero.
    assert (Hempty : frame_to_numpy f
              = Done (Numpy.mk_array [Frame.height f; Frame.width f; 3]
                        [CInt.int_mul (Frame.width f) 3; 3; 1] true [])).
    { unfold frame_to_numpy, Numpy.array_new. simpl forallb.
      destruct (Z.leb_spec 0 (Frame.height f)); [|lia].
      destruct (Z.leb_spec 0 (Frame.width f)); [|lia].
      cbn -[copy_loop Z.mul].
      replace (Z.to_nat (Frame.height f * (Frame.width f * (3 * 1))))
        with 0%nat by nia.
      cbn [replicate].
      destruct (copy_loop_zero_area f [CInt.int_mul (Frame.width f) 3; 3; 1]
                  Hw0 Hh0 Hzero) as (st & -> & Hst).
      cbn. by rewrite Hst. }
    rewrite Hempty.
    destruct (new_object_spec
                (ArrayObj (Numpy.mk_array [Frame.height f; Frame.width f; 3]
                             [CInt.int_mul (Frame.width f) 3; 3; 1] true []))
                (run_block body σ1).2) as (arr & -> & _).
    exists arr. split; [done|]. apply lookup_insert_eq.
  - intros Hw Hh.
    split; [intros strd buf; by apply copy_loop_no_data|].
    intros v. unfold frame_to_numpy.
    destruct (Numpy.array_new _ _) as [r| |]; [|done..]. cbn -[copy_loop].
    by rewrite (copy_loop_no_data f _ _ Hdata Hw Hh).
Qed.

Lemma python_frame_data_witness :
  exec Frame_init (mk_pystate ∅ Samples.world0)
  = (Done (PyRef 1%positive), (exec Frame_init (mk_pystate ∅ Samples.world0)).2)
  ∧ ∀ v, (exec (Frame_data 1%positive)
            (run_block [Call (Frame_set 1%positive PyFrame.width (PyInt 640));
                        Call (Frame_set 1%positive PyFrame.height (PyInt 480))]
               (exec Frame_init (mk_pystate ∅ Samples.world0)).2).2).1
         ≠ Done v.
Proof.
  assert (Hinit : exec Frame_init (mk_pystate ∅ Samples.world0)
                  = (Done (PyRef 1%positive),
                     (exec Frame_init (mk_pystate ∅ Samples.world0)).2))
    by (vm_compute; reflexivity).
  split; [exact Hinit|].
  destruct (python_frame_data _ _ _
              [Call (Frame_set 1%positive PyFrame.width (PyInt 640));
               Call (Frame_set 1%positive PyFrame.height (PyInt 480))] Hinit)
    as (f & Hf & _ & _ & _ & Hpos).
  assert (Hf' : heap (run_block
                        [Call (Frame_set 1%positive PyFrame.width (PyInt 640));
                         Call (Frame_set 1%positive PyFrame.height (PyInt 480))]
                        (exec Frame_init (mk_pystate ∅ Samples.world0)).2).2
                  !! 1%positive
                = Some (FrameObj (Frame.mk 0 0 None [] 640 480)))
    by (vm_compute; reflexivity).
  rewrite Hf' in Hf. injection Hf as <-.
  apply Hpos; simpl; lia.
Defined.

Lemma frame_set_get_witness :
  heap (exec Frame_init (mk_pystate ∅ Samples.world0)).2 !! 1%positive
  = Some (FrameObj PyFrame.init)
  ∧ (exec (Frame_set 1%positive PyFrame.width (PyBool true))
       (exec Frame_init (mk_pystate ∅ Samples.world0)).2).1 = Done PyNone
  ∧ (exec (Frame_get 1%positive PyFrame.width)
       (exec (Frame_set 1%positive PyFrame.width (PyBool true))
          (exec Frame_init (mk_pystate ∅ Samples.world0)).2).2).1
    = Done (PyInt 1).
Proof.
  assert (Hl : heap (exec Frame_init (mk_pystate ∅ Samples.world0)).2 !! 1%positive
               = Some (FrameObj PyFrame.init)) by (vm_compute; reflexivity).
  split; [exact Hl|].
  destruct (frame_set_get 1%positive PyFrame.width (PyBool true)
              (exec Frame_init (mk_pystate ∅ Samples.world0)).2)
    as [[(Hdone & Hget & _)|Hfail] Hwhen].
  - split; [exact Hdone|]. rewrite Hget. reflexivity.
  - pose proof (proj1 (Hwhen _ Hl) true eq_refl) as Hdone.
    rewrite Hfail in Hdone. discriminate Hdone.
Defined.

Lemma metadata_set_get_witness :
  heap (exec VideoMetadata_init (mk_pystate ∅ Samples.world0)).2 !! 1%positive
  = Some (VideoMetadataObj PyVideoMetadata.init)
  ∧ exec (VideoMetadata_get 1%positive PyVideoMetadata.fps)
      (exec (VideoMetadata_set 1%positive PyVideoMetadata.fps
               (PyInt 18014398509481985))
         (exec VideoMetadata_init (mk_pystate ∅ Samples.world0)).2).2
    = (Done (PyFloat 18014398509481984),
       (exec (VideoMetadata_set 1%positive PyVideoMetadata.fps
                (PyInt 18014398509481985))
          (exec VideoMetadata_init (mk_pystate ∅ Samples.world0)).2).2).
Proof.
  assert (Hl : heap (exec VideoMetadata_init (mk_pystate ∅ Samples.world0)).2
                 !! 1%positive = Some (VideoMetadataObj PyVideoMetadata.init))
    by (vm_compute; reflexivity).
  split; [exact Hl|].
  destruct (metadata_set_get 1%positive PyVideoMetadata.fps
              (PyInt 18014398509481985)
              (exec VideoMetadata_init (mk_pystate ∅ Samples.world0)).2)
    as [[(_ & Hget & _)|Hfail] Hwhen].
  - exact Hget.
  - assert (Hnone : round_to_double 18014398509481985 = None).
    { apply (Hwhen _ _ Hl (or_introl eq_refl) eq_refl). by rewrite Hfail. }
    vm_compute in Hnone. discriminate Hnone.
Defined.
